(** * TCP output over 6LoWPAN and the kernel heap membership test

    A shallow embedding of

      - net/sixlowpan/sixlowpan_tcpsend.c
          ([psock_6lowpan_tcp_send], [sixlowpan_tcp_send])
      - mm/kmm_heap/kmm_heapmember.c
          ([kmm_heapmember])

    C statements are written in a small monad that threads the object a
    pointer argument designates and a chronological list of observable
    events, and that stops on a NULL dereference or on a failed
    assertion.  Functions declared in headers and defined in other files
    (the device registry, the neighbour table, the address translator and
    the frame dispatcher) are fields of the class [Collaborators]. *)

From Stdlib Require Import ZArith List Bool Lia String.
Import ListNotations.
Open Scope Z_scope.

Set Implicit Arguments.

(** ** Build configuration

    The preprocessor symbols the two functions are conditional on.
    DEBUGASSERT is a test only where debug assertions are configured in,
    and the width of size_t follows CONFIG_SMALL_MEMORY. *)

Record config : Type := Config {
  CONFIG_DEBUG_ASSERTIONS    : bool;  (* DEBUGASSERT expands to a test *)
  CONFIG_SMALL_MEMORY        : bool;  (* size_t is 16 bits wide, else 32 *)
  CONFIG_NET_IPv4            : bool;
  CONFIG_NETDEV_MULTINIC     : bool;
  CONFIG_NETDEV_MULTILINK    : bool;
  CONFIG_NET_ICMPv6_NEIGHBOR : bool;
  CONFIG_NET_SOCKOPTS        : bool
}.

(** ** Constants of the headers *)

(** Modelled from the spec: the error numbers of errno.h, a header that
    is not among the files embedded here.  The spec names them
    InvalidHandle, NotConnected, WrongProtocolFamily and NotRoutable; the
    values are the ones of the C library. *)

Definition EBADF       : Z := 9.
Definition EPROTOTYPE  : Z := 91.
Definition ENETUNREACH : Z := 101.
Definition ENOTCONN    : Z := 107.

(** Modelled from the spec: the lengths and the protocol number of the
    IPv6 and TCP headers, from ip.h and tcp.h, which are not among the
    files embedded here: a fixed IPv6 header, a TCP header without
    options, and the next-header value of TCP. *)

Definition IPv6_HDRLEN  : Z := 40.
Definition TCP_HDRLEN   : Z := 20.
Definition IP_PROTO_TCP : Z := 6.

(** Enumerated header constants, whose numeric values play no role. *)

Inductive sock_type : Type := SOCK_STREAM | SOCK_DGRAM | SOCK_RAW.
Inductive sa_family : Type := PF_INET | PF_INET6.
Inductive net_lltype : Type :=
  NET_LL_ETHERNET | NET_LL_LOOPBACK | NET_LL_SLIP | NET_LL_IEEE802154.

Definition sock_type_eqb (a b : sock_type) : bool :=
  match a, b with
  | SOCK_STREAM, SOCK_STREAM | SOCK_DGRAM, SOCK_DGRAM | SOCK_RAW, SOCK_RAW => true
  | _, _ => false
  end.

Definition sa_family_eqb (a b : sa_family) : bool :=
  match a, b with
  | PF_INET, PF_INET | PF_INET6, PF_INET6 => true
  | _, _ => false
  end.

Definition net_lltype_eqb (a b : net_lltype) : bool :=
  match a, b with
  | NET_LL_ETHERNET, NET_LL_ETHERNET | NET_LL_LOOPBACK, NET_LL_LOOPBACK
  | NET_LL_SLIP, NET_LL_SLIP | NET_LL_IEEE802154, NET_LL_IEEE802154 => true
  | _, _ => false
  end.

(** ** Socket flags *)

(** Modelled from the spec: the flag macros of socket/socket.h, which is
    not among the files embedded here.  The spec gives a socket a
    send-state flag (idle / sending) and flags recording whether the
    connection is established; [s_flags] is an 8-bit word whose two low
    bits hold the state and where one bit records the connection. *)

Definition _SF_IDLE      : Z := 0.
Definition _SF_SEND      : Z := 3.
Definition _SF_MASK      : Z := 3.
Definition _SF_CONNECTED : Z := 64.

Definition _SS_SETSTATE (s f : Z) : Z := Z.lor (Z.land s (Z.lnot _SF_MASK)) f.
Definition _SS_ISCONNECTED (s : Z) : bool := negb (Z.land s _SF_CONNECTED =? 0).

(** Conversions on assignment to the unsigned types of the code. *)

Definition to_uint8 (z : Z) : Z := z mod 2 ^ 8.

Definition size_t_bits (cfg : config) : Z :=
  if CONFIG_SMALL_MEMORY cfg then 16 else 32.

Definition to_size_t (cfg : config) (z : Z) : Z := z mod 2 ^ size_t_bits cfg.

(** ** Data *)

Definition net_ipv6addr_t : Type := list Z.   (* the 16 bytes of an address *)
Definition rimeaddr_s     : Type := list Z.

Record tcp_conn_s : Type := TcpConn {
  domain : sa_family;
  laddr  : net_ipv6addr_t;     (* u.ipv6.laddr *)
  raddr  : net_ipv6addr_t      (* u.ipv6.raddr *)
}.

(** A pointer is [None] when it is NULL and holds its target otherwise. *)

Record socket : Type := Socket {
  s_crefs    : Z;
  s_type     : sock_type;
  s_flags    : Z;
  s_sndtimeo : Z;
  s_conn     : option tcp_conn_s
}.

Record net_driver_s : Type := NetDriver {
  d_lltype : net_lltype;
  d_len    : Z;
  d_buf    : list Z            (* bytes of the packet buffer *)
}.

Definition set_s_flags (v : Z) (s : socket) : socket :=
  Socket (s_crefs s) (s_type s) (to_uint8 v) (s_sndtimeo s) (s_conn s).

Definition set_d_len (v : Z) (d : net_driver_s) : net_driver_s :=
  NetDriver (d_lltype d) v (d_buf d).

(** Modelled from the spec: the two fields of [struct ipv6_hdr_s] (ip.h)
    that are read through the cast of [d_buf], at their places in an
    IPv6 header: the next-header byte and the destination address. *)

Definition ipv6hdr_proto (buf : list Z) : Z := nth 6 buf 0.
Definition ipv6hdr_destipaddr (buf : list Z) : net_ipv6addr_t :=
  firstn 16 (skipn 24 buf).

(** ** Results *)

Inductive fault : Type := NullDereference | AssertionFailed.

Inductive result (A : Type) : Type :=
| Returned (a : A)
| Stopped (f : fault).

Arguments Stopped {A} f.

(** ** Observable events

    [EvFindDevNull] and [EvNeighborNull] are the calls of the device
    registry and of the neighbour table with the address of a field of a
    NULL connection, from which no address can be read; they hold what
    the callee does then, which is to answer or to stop. *)

Inductive loglevel : Type := LogError | LogWarning.

Inductive event : Type :=
| EvLog (lvl : loglevel) (msg : string)
| EvFindDev (args : list net_ipv6addr_t) (found : option net_driver_s)
| EvFindDevNull (answer : result (option net_driver_s))
| EvNeighbor (addr : net_ipv6addr_t) (ret : Z)
| EvNeighborNull (answer : result Z)
| EvSetFlags (v : Z)
| EvSend (dev : net_driver_s) (hdr buf : list Z) (len : Z)
         (destmac : rimeaddr_s) (timeout : Z) (ret : Z)
| EvQueueFrames (dev : net_driver_s) (ipv6hdr payload len : Z)
                (destmac : rimeaddr_s) (ret : Z).

(** ** The monad of C statements *)

Record run (S A : Type) : Type := Run {
  outcome : result A;
  final   : S;
  trace   : list event
}.

Definition M (S A : Type) : Type := S -> list event -> run S A.

Definition ret {S A} (a : A) : M S A := fun s tr => Run (Returned a) s tr.

Definition stop {S A} (f : fault) : M S A := fun s tr => Run (Stopped f) s tr.

Definition bind {S A B} (m : M S A) (k : A -> M S B) : M S B :=
  fun s tr =>
    match outcome (m s tr) with
    | Returned a => k a (final (m s tr)) (trace (m s tr))
    | Stopped f => Run (Stopped f) (final (m s tr)) (trace (m s tr))
    end.

Declare Scope stmt_scope.
Delimit Scope stmt_scope with stmt.
Notation "x <- m ;; k" := (bind m (fun x => k))
  (at level 61, m at next level, right associativity) : stmt_scope.
Notation "m ;; k" := (bind m (fun _ => k))
  (at level 61, right associativity) : stmt_scope.
Open Scope stmt_scope.

Definition lift {S A} (x : result A) : M S A := fun s tr => Run x s tr.

Definition emit {S} (e : event) : M S unit :=
  fun s tr => Run (Returned tt) s (tr ++ [e]).

Definition nerr {S} (msg : string) : M S unit := emit (EvLog LogError msg).
Definition nwarn {S} (msg : string) : M S unit := emit (EvLog LogWarning msg).

(** Operations through the pointer argument the state stands for. *)

Definition nonnull {T} : M (option T) bool :=
  fun s tr => Run (Returned (match s with Some _ => true | None => false end)) s tr.

Definition load {T A} (field : T -> A) : M (option T) A :=
  fun s tr =>
    match s with
    | Some o => Run (Returned (field o)) s tr
    | None => Run (Stopped NullDereference) s tr
    end.

Definition store {T} (upd : T -> T) : M (option T) unit :=
  fun s tr =>
    match s with
    | Some o => Run (Returned tt) (Some (upd o)) tr
    | None => Run (Stopped NullDereference) s tr
    end.

(** Dereference of a pointer read earlier. *)

Definition deref {S T} (p : option T) : M S T :=
  match p with
  | Some o => ret o
  | None => stop NullDereference
  end.

(** [a && b] and [a || b] of C: the right operand is evaluated only when
    the left one does not decide. *)

Definition c_and {S} (a b : M S bool) : M S bool :=
  x <- a ;; if x then b else ret false.

Definition c_or {S} (a b : M S bool) : M S bool :=
  x <- a ;; if x then ret true else b.

(** DEBUGASSERT: nothing unless assertions are configured in, in which
    case a false condition stops the caller. *)

Definition DEBUGASSERT {S} (cfg : config) (cond : M S bool) : M S unit :=
  if CONFIG_DEBUG_ASSERTIONS cfg
  then (ok <- cond ;; if ok then ret tt else stop AssertionFailed)
  else ret tt.

(** ** Collaborators

    Functions the two send paths call and that are defined in other
    files: the device registry, the neighbour table, the address
    translator and the two entry points of the frame dispatcher.  A
    pointer argument is passed as its target; the dispatcher of the
    state-machine path hands back the device it was given, which it may
    have written to.  [ipv6tcp_indeterminate] stands for the content of
    the local [ipv6tcp], which the socket path never initialises.

    The addresses of a connection are arrays inside [struct tcp_conn_s]
    and are handed over by address, with no read by the caller.  When
    the connection pointer is NULL the callee gets an address from which
    nothing can be read, and what it does then is its own affair: the
    three fields in [_null] say whether it answers, and what, or stops. *)

Class Collaborators : Type := {
  netdev_findby_ipv6addr : list net_ipv6addr_t -> option net_driver_s;
  icmpv6_neighbor        : net_ipv6addr_t -> Z;
  sixlowpan_rimefromip   : net_ipv6addr_t -> rimeaddr_s;
  sixlowpan_send         : net_driver_s -> list Z -> list Z -> Z ->
                           rimeaddr_s -> Z -> Z;
  sixlowpan_queue_frames : net_driver_s -> Z -> Z -> Z -> rimeaddr_s ->
                           Z * net_driver_s;
  ipv6tcp_indeterminate  : list Z;
  netdev_findby_ipv6addr_null : result (option net_driver_s);
  icmpv6_neighbor_null        : result Z;
  sixlowpan_rimefromip_null   : result rimeaddr_s
}.

Section Sixlowpan.

Context {E : Collaborators}.
Variable cfg : config.

(** Calls that leave an event behind. *)

Definition find_device {S} (args : list net_ipv6addr_t)
  : M S (option net_driver_s) :=
  emit (EvFindDev args (netdev_findby_ipv6addr args)) ;;
  ret (netdev_findby_ipv6addr args).

Definition neighbor {S} (addr : net_ipv6addr_t) : M S Z :=
  emit (EvNeighbor addr (icmpv6_neighbor addr)) ;;
  ret (icmpv6_neighbor addr).

(** The same calls with addresses taken inside the connection [conn]
    points to: [fields] and [field] name the arrays handed over. *)

Definition find_device_at {S} (conn : option tcp_conn_s)
    (fields : list (tcp_conn_s -> net_ipv6addr_t))
  : M S (option net_driver_s) :=
  match conn with
  | Some c => find_device (map (fun field => field c) fields)
  | None =>
      emit (EvFindDevNull netdev_findby_ipv6addr_null) ;;
      lift netdev_findby_ipv6addr_null
  end.

Definition neighbor_at {S} (conn : option tcp_conn_s)
    (field : tcp_conn_s -> net_ipv6addr_t) : M S Z :=
  match conn with
  | Some c => neighbor (field c)
  | None =>
      emit (EvNeighborNull icmpv6_neighbor_null) ;;
      lift icmpv6_neighbor_null
  end.

Definition rimefromip_at {S} (conn : option tcp_conn_s)
    (field : tcp_conn_s -> net_ipv6addr_t) : M S rimeaddr_s :=
  match conn with
  | Some c => ret (sixlowpan_rimefromip (field c))
  | None => lift sixlowpan_rimefromip_null
  end.

Definition send_frames {S} (dev : net_driver_s) (hdr buf : list Z) (len : Z)
    (destmac : rimeaddr_s) (timeout : Z) : M S Z :=
  emit (EvSend dev hdr buf len destmac timeout
               (sixlowpan_send dev hdr buf len destmac timeout)) ;;
  ret (sixlowpan_send dev hdr buf len destmac timeout).

Definition queue_frames (ipv6hdr payload len : Z) (destmac : rimeaddr_s)
  : M (option net_driver_s) Z :=
  fun s tr =>
    match s with
    | Some d =>
        let r := sixlowpan_queue_frames d ipv6hdr payload len destmac in
        Run (Returned (fst r)) (Some (snd r))
            (tr ++ [EvQueueFrames d ipv6hdr payload len destmac (fst r)])
    | None => Run (Stopped NullDereference) s tr
    end.

Definition assign_s_flags (v : Z) : M (option socket) unit :=
  store (set_s_flags v) ;; emit (EvSetFlags (to_uint8 v)).

(** ** psock_6lowpan_tcp_send

    The function is given in four parts, the last one first; each part
    ends in a [return] or goes on with the part that follows it in the
    source. *)

(** From "Set the socket state to sending" to the end.  The answer of
    the dispatcher is an int and is returned as an ssize_t, a type taken
    to hold every int. *)

Definition tcp_send_dispatch (conn : option tcp_conn_s) (dev : net_driver_s)
    (buf : list Z) (len : Z) : M (option socket) Z :=
  f <- load s_flags ;;
  assign_s_flags (_SS_SETSTATE f _SF_SEND) ;;
  destmac <- rimefromip_at conn raddr ;;
  timeout <- (if CONFIG_NET_SOCKOPTS cfg then load s_sndtimeo else ret 0) ;;
  r <- send_frames dev ipv6tcp_indeterminate buf len destmac timeout ;;
  (if r <? 0 then nerr "ERROR: sixlowpan_send() failed: %d" else ret tt) ;;
  f' <- load s_flags ;;
  assign_s_flags (_SS_SETSTATE f' _SF_IDLE) ;;
  ret r.

(** "Route outgoing message to the correct device" and the neighbour
    table.  Nothing is read through [conn] here: its addresses are
    handed over by address. *)

Definition tcp_send_route (conn : option tcp_conn_s)
    (buf : list Z) (len : Z) : M (option socket) Z :=
  dev <- find_device_at conn (if CONFIG_NETDEV_MULTINIC cfg
                              then [laddr; raddr] else [raddr]) ;;
  match dev with
  | None =>
      nwarn (if CONFIG_NETDEV_MULTINIC cfg
             then "WARNING: Not routable or not IEEE802.15.4 MAC"
             else "WARNING: Not routable") ;;
      ret (- ENETUNREACH)
  | Some d =>
      if CONFIG_NETDEV_MULTILINK cfg
         && negb (net_lltype_eqb (d_lltype d) NET_LL_IEEE802154)
      then
        nwarn (if CONFIG_NETDEV_MULTINIC cfg
               then "WARNING: Not routable or not IEEE802.15.4 MAC"
               else "WARNING: Not routable") ;;
        ret (- ENETUNREACH)
      else if CONFIG_NET_ICMPv6_NEIGHBOR cfg
      then
        r <- neighbor_at conn raddr ;;
        if r <? 0
        then nerr "ERROR: Not reachable" ;; ret (- ENETUNREACH)
        else tcp_send_dispatch conn d buf len
      else tcp_send_dispatch conn d buf len
  end.

(** From "Make sure that this is a connected TCP socket" on: the
    statements that follow the test of the socket itself. *)

Definition tcp_send_validated (buf : list Z) (len : Z) : M (option socket) Z :=
  unconnected <- c_or (t <- load s_type ;;
                       ret (negb (sock_type_eqb t SOCK_STREAM)))
                      (f <- load s_flags ;;
                       ret (negb (_SS_ISCONNECTED f))) ;;
  if unconnected
  then nerr "ERROR: Not connected" ;; ret (- ENOTCONN)
  else
    conn <- load s_conn ;;
    DEBUGASSERT cfg (ret (match conn with Some _ => true | None => false end)) ;;
    not_ipv6 <- (if CONFIG_NET_IPv4 cfg
                 then c <- deref conn ;;
                      ret (negb (sa_family_eqb (domain c) PF_INET6))
                 else ret false) ;;
    if not_ipv6
    then nwarn "WARNING: Not IPv6" ;; ret (- EPROTOTYPE)
    else tcp_send_route conn buf len.

(** The whole function.  The test of the socket reads
    [psock != NULL || psock->s_crefs <= 0]. *)

Definition psock_6lowpan_tcp_send (buf : list Z) (len : Z)
  : M (option socket) Z :=
  DEBUGASSERT cfg (c_and nonnull (c <- load s_crefs ;; ret (0 <? c))) ;;
  DEBUGASSERT cfg (t <- load s_type ;; ret (sock_type_eqb t SOCK_STREAM)) ;;
  invalid <- c_or nonnull (c <- load s_crefs ;; ret (c <=? 0)) ;;
  if invalid
  then nerr "ERROR: Invalid socket" ;; ret (- EBADF)
  else tcp_send_validated buf len.

(** ** sixlowpan_tcp_send

    [ipv6hdr] is the start of [d_buf] (offset 0) and the payload handed
    to the dispatcher is [d_buf + hdrlen], of [d_len - hdrlen] bytes in
    the arithmetic of size_t. *)

Definition sixlowpan_tcp_send : M (option net_driver_s) unit :=
  DEBUGASSERT cfg (c_and nonnull (l <- load d_len ;; ret (0 <? l))) ;;
  pending <- c_and nonnull (l <- load d_len ;; ret (0 <? l)) ;;
  (if pending
   then
     buf <- load d_buf ;;
     let ipv6hdr := 0 in
     if negb (ipv6hdr_proto buf =? IP_PROTO_TCP)
     then nwarn "WARNING: Expected TCP protoype: %u"
     else
       let hdrlen := IPv6_HDRLEN + TCP_HDRLEN in
       l <- load d_len ;;
       if hdrlen <? l
       then nwarn "WARNING: Packet to small:  Have %u need >%u"
       else
         let destmac := sixlowpan_rimefromip (ipv6hdr_destipaddr buf) in
         l' <- load d_len ;;
         queue_frames ipv6hdr (ipv6hdr + hdrlen)
                      (to_size_t cfg (l' - hdrlen)) destmac ;;
         ret tt
   else ret tt) ;;
  store (set_d_len 0).

End Sixlowpan.

(** ** kmm_heapmember

    The kernel heap [g_kmmheap] and the user heap [g_mmheap] are the
    heaps of the memory manager.  The type of a heap and
    [mm_heapmember], the membership test of the generic allocator, are
    declared and defined in other files and are variables of the
    section; [mm_heapmember] reads the heap it is given. *)

Section KernelHeap.

Variable mm_heap_s : Type.
Variable mm_heapmember : mm_heap_s -> Z -> bool.

Record heaps : Type := Heaps {
  g_kmmheap : mm_heap_s;
  g_mmheap  : mm_heap_s
}.

Definition kmm_heapmember (mem : Z) : M heaps bool :=
  g <- (fun g tr => Run (Returned (g_kmmheap g)) g tr) ;;
  ret (mm_heapmember g mem).

End KernelHeap.

(** * Vocabulary of the properties *)

(** ** Reading runs *)


Definition is_lookup (e : event) : bool :=
  match e with
  | EvFindDev _ _ | EvNeighbor _ _ => true
  | EvFindDevNull _ | EvNeighborNull _ => true
  | _ => false
  end.

Definition is_dispatch (e : event) : bool :=
  match e with
  | EvSend _ _ _ _ _ _ _ | EvQueueFrames _ _ _ _ _ _ => true
  | _ => false
  end.

Definition is_flag_write (e : event) : bool :=
  match e with
  | EvSetFlags _ => true
  | _ => false
  end.


(** ** The state-machine path *)

Definition hdrlen : Z := IPv6_HDRLEN + TCP_HDRLEN.

Definition declares_tcp (dev : net_driver_s) : Prop :=
  ipv6hdr_proto (d_buf dev) = IP_PROTO_TCP.

Definition flush_destmac {E : Collaborators} (dev : net_driver_s) : rimeaddr_s :=
  sixlowpan_rimefromip (ipv6hdr_destipaddr (d_buf dev)).

Definition flush_payload_len (cfg : config) (dev : net_driver_s) : Z :=
  to_size_t cfg (d_len dev - hdrlen).

(** A call that does nothing: it returns, the device is as it was, and
    nothing was dispatched or logged. *)

Definition flush_is_noop {E : Collaborators} (cfg : config)
    (dev : net_driver_s) : Prop :=
  sixlowpan_tcp_send cfg (Some dev) [] = Run (Returned tt) (Some dev) [].

(** ** The socket path *)

(** The call leaves the socket alone: no lookup, no dispatch, no write
    to its flags, and the socket is as it was. *)

Definition untouched (s : socket) (r : run (option socket) Z) : Prop :=
  final r = Some s /\
  existsb is_lookup (trace r) = false /\
  existsb is_dispatch (trace r) = false /\
  existsb is_flag_write (trace r) = false.

(** Routing has succeeded within the events [pre]: a device was found,
    it is an IEEE 802.15.4 one where several link layers are configured,
    and the neighbour table knows the peer where it is consulted. *)

Definition found_device (e : event) : option net_driver_s :=
  match e with
  | EvFindDev _ found => found
  | EvFindDevNull (Returned found) => found
  | _ => None
  end.

Definition neighbor_answer (e : event) : option Z :=
  match e with
  | EvNeighbor _ r => Some r
  | EvNeighborNull (Returned r) => Some r
  | _ => None
  end.

Definition routed (cfg : config) (pre : list event) : Prop :=
  (exists e d,
      In e pre /\ found_device e = Some d /\
      (CONFIG_NETDEV_MULTILINK cfg = true -> d_lltype d = NET_LL_IEEE802154)) /\
  (CONFIG_NET_ICMPv6_NEIGHBOR cfg = true ->
   exists e r, In e pre /\ neighbor_answer e = Some r /\ 0 <= r).

(** Every write that sets the state to sending comes after routing has
    succeeded, and the next event is the call of the dispatcher. *)


(** Every call of the dispatcher comes right after a write that sets
    the state to sending, and the events end with a write that sets the
    state to idle. *)



(** Events among which the flags are not written and no dispatcher is
    called. *)

Definition quiet (tr : list event) : Prop :=
  existsb is_flag_write tr = false /\ existsb is_dispatch tr = false.

(** The events of the last part: the write of the sending state, the
    call of the dispatcher, the error message when it failed, and the
    write of the idle state. *)

Definition dispatch_timeout (cfg : config) (s : socket) : Z :=
  if CONFIG_NET_SOCKOPTS cfg then s_sndtimeo s else 0.

Definition dispatch_result {E : Collaborators} (cfg : config)
    (c : tcp_conn_s) (d : net_driver_s) (buf : list Z) (len : Z)
    (s : socket) : Z :=
  sixlowpan_send d ipv6tcp_indeterminate buf len
    (sixlowpan_rimefromip (raddr c)) (dispatch_timeout cfg s).

Definition dispatch_events {E : Collaborators} (cfg : config)
    (c : tcp_conn_s) (d : net_driver_s) (buf : list Z) (len : Z)
    (s : socket) : list event :=
  let v1 := _SS_SETSTATE (s_flags s) _SF_SEND in
  let r := dispatch_result cfg c d buf len s in
  [EvSetFlags (to_uint8 v1);
   EvSend d ipv6tcp_indeterminate buf len
          (sixlowpan_rimefromip (raddr c)) (dispatch_timeout cfg s) r]
  ++ (if r <? 0 then [EvLog LogError "ERROR: sixlowpan_send() failed: %d"]
      else [])
  ++ [EvSetFlags (to_uint8 (_SS_SETSTATE (to_uint8 v1) _SF_IDLE))].

(** The call answers -EBADF and leaves the socket alone. *)

Definition rejected_as_invalid (s : socket) (r : run (option socket) Z) : Prop :=
  outcome r = Returned (- EBADF) /\ untouched s r.

(** [r] is the run of the whole function on the socket [s], or the run of
    its statements after the test of the socket. *)

Definition send_run {E : Collaborators} (cfg : config) (buf : list Z)
    (len : Z) (s : socket) (r : run (option socket) Z) : Prop :=
  r = psock_6lowpan_tcp_send cfg buf len (Some s) [] \/
  r = tcp_send_validated cfg buf len (Some s) [].

(** ** Conditions on the way through the socket path *)

Definition is_warning (e : event) : bool :=
  match e with
  | EvLog LogWarning _ => true
  | _ => false
  end.

Definition is_find (e : event) : bool :=
  match e with
  | EvFindDev _ _ | EvFindDevNull _ => true
  | _ => false
  end.

Definition is_neighbor (e : event) : bool :=
  match e with
  | EvNeighbor _ _ | EvNeighborNull _ => true
  | _ => false
  end.

Definition is_send (e : event) : bool :=
  match e with
  | EvSend _ _ _ _ _ _ _ => true
  | _ => false
  end.

(** The number of events of a kind. *)

Definition count (kind : event -> bool) (tr : list event) : nat :=
  List.length (filter kind tr).

(** The socket passes the test of line 105: a stream socket whose
    connected flag is set. *)

Definition established (s : socket) : bool :=
  sock_type_eqb (s_type s) SOCK_STREAM && _SS_ISCONNECTED (s_flags s).

(** The connection passes the test of the domain, which is compiled in
    with IPv4 only. *)

Definition serves_family (cfg : config) (c : tcp_conn_s) : bool :=
  negb (CONFIG_NET_IPv4 cfg) || sa_family_eqb (domain c) PF_INET6.

(** The arguments of the device lookup. *)

Definition lookup_args (cfg : config) (c : tcp_conn_s) : list net_ipv6addr_t :=
  if CONFIG_NETDEV_MULTINIC cfg then [laddr c; raddr c] else [raddr c].

(** The device passes the test of the link layer, which is compiled in
    with several link layers only. *)

Definition link_accepted (cfg : config) (d : net_driver_s) : bool :=
  negb (CONFIG_NETDEV_MULTILINK cfg)
  || net_lltype_eqb (d_lltype d) NET_LL_IEEE802154.

(** The warning of a failed routing. *)

Definition not_routable_warning (cfg : config) : event :=
  EvLog LogWarning
        (if CONFIG_NETDEV_MULTINIC cfg
         then "WARNING: Not routable or not IEEE802.15.4 MAC"
         else "WARNING: Not routable").

(** The device lookup has given a device that passes the test of the
    link layer. *)

Definition usable_device (cfg : config) (found : option net_driver_s) : bool :=
  match found with
  | Some d => link_accepted cfg d
  | None => false
  end.

(** The neighbour table, consulted only where it is compiled in, knows
    the peer. *)

Definition neighbor_known {E : Collaborators} (cfg : config)
    (c : tcp_conn_s) : bool :=
  negb (CONFIG_NET_ICMPv6_NEIGHBOR cfg) || (0 <=? icmpv6_neighbor (raddr c)).

(** The events of a routing that succeeds. *)

Definition routing_events {E : Collaborators} (cfg : config)
    (c : tcp_conn_s) (d : net_driver_s) : list event :=
  EvFindDev (lookup_args cfg c) (Some d)
  :: (if CONFIG_NET_ICMPv6_NEIGHBOR cfg
      then [EvNeighbor (raddr c) (icmpv6_neighbor (raddr c))]
      else []).

(** The flag bits other than the two bits of the state. *)

Definition _SF_OTHERS : Z := 252.

(** Two calls of the state-machine path in a row. *)

Definition flush_twice {E : Collaborators} (cfg : config)
  : M (option net_driver_s) unit :=
  sixlowpan_tcp_send cfg ;; sixlowpan_tcp_send cfg.

(** The events and the answer of the last part of the socket path for a
    link address [mac], however it was obtained. *)

Definition send_answer {E : Collaborators} (cfg : config)
    (mac : rimeaddr_s) (d : net_driver_s) (buf : list Z) (len : Z)
    (s : socket) : Z :=
  sixlowpan_send d ipv6tcp_indeterminate buf len mac (dispatch_timeout cfg s).

Definition send_events {E : Collaborators} (cfg : config)
    (mac : rimeaddr_s) (d : net_driver_s) (buf : list Z) (len : Z)
    (s : socket) : list event :=
  [EvSetFlags (to_uint8 (_SS_SETSTATE (s_flags s) _SF_SEND));
   EvSend d ipv6tcp_indeterminate buf len mac (dispatch_timeout cfg s)
          (send_answer cfg mac d buf len s)]
  ++ (if send_answer cfg mac d buf len s <? 0
      then [EvLog LogError "ERROR: sixlowpan_send() failed: %d"]
      else [])
  ++ [EvSetFlags (to_uint8 (_SS_SETSTATE
                              (to_uint8 (_SS_SETSTATE (s_flags s) _SF_SEND))
                              _SF_IDLE))].

(** What the collaborators are asked and answer for the addresses inside
    the connection [conn] points to. *)

Definition find_event {E : Collaborators} (cfg : config)
    (conn : option tcp_conn_s) : event :=
  match conn with
  | Some c => EvFindDev (lookup_args cfg c)
                        (netdev_findby_ipv6addr (lookup_args cfg c))
  | None => EvFindDevNull netdev_findby_ipv6addr_null
  end.

Definition find_answer {E : Collaborators} (cfg : config)
    (conn : option tcp_conn_s) : result (option net_driver_s) :=
  match conn with
  | Some c => Returned (netdev_findby_ipv6addr (lookup_args cfg c))
  | None => netdev_findby_ipv6addr_null
  end.

Definition neighbor_event {E : Collaborators}
    (conn : option tcp_conn_s) : event :=
  match conn with
  | Some c => EvNeighbor (raddr c) (icmpv6_neighbor (raddr c))
  | None => EvNeighborNull icmpv6_neighbor_null
  end.

Definition neighbor_result {E : Collaborators}
    (conn : option tcp_conn_s) : result Z :=
  match conn with
  | Some c => Returned (icmpv6_neighbor (raddr c))
  | None => icmpv6_neighbor_null
  end.

Definition translator_answer {E : Collaborators}
    (conn : option tcp_conn_s) : result rimeaddr_s :=
  match conn with
  | Some c => Returned (sixlowpan_rimefromip (raddr c))
  | None => sixlowpan_rimefromip_null
  end.

(** The events of a routing that has succeeded: one device lookup,
    followed by at most one consultation of the neighbour table. *)

Definition routing_prefix (cfg : config) (pre : list event) : Prop :=
  routed cfg pre /\
  exists e1 rest,
    is_find e1 = true /\ pre = e1 :: rest /\
    (rest = [] \/ exists e2, is_neighbor e2 = true /\ rest = [e2]).

(** The flags of a socket after the write of a state. *)

Definition in_state (st : Z) (s : socket) : socket :=
  set_s_flags (_SS_SETSTATE (s_flags s) st) s.

(** The ways through the statements that follow the test of the socket,
    from the socket [s] and no event: the run of each. *)

Inductive way {E : Collaborators} (cfg : config) (buf : list Z) (len : Z)
    (s : socket) : run (option socket) Z -> Prop :=
| way_unconnected :
    way cfg buf len s
      (Run (Returned (- ENOTCONN)) (Some s)
           [EvLog LogError "ERROR: Not connected"])
| way_no_connection :
    way cfg buf len s
      (Run (Stopped (if CONFIG_DEBUG_ASSERTIONS cfg
                     then AssertionFailed else NullDereference))
           (Some s) [])
| way_family :
    way cfg buf len s
      (Run (Returned (- EPROTOTYPE)) (Some s)
           [EvLog LogWarning "WARNING: Not IPv6"])
| way_find_stops (e : event) (f : fault) :
    is_find e = true ->
    way cfg buf len s (Run (Stopped f) (Some s) [e])
| way_no_device (e : event) :
    is_find e = true ->
    way cfg buf len s
      (Run (Returned (- ENETUNREACH)) (Some s) [e; not_routable_warning cfg])
| way_neighbor_stops (e1 e2 : event) (f : fault) :
    is_find e1 = true -> is_neighbor e2 = true ->
    way cfg buf len s (Run (Stopped f) (Some s) [e1; e2])
| way_unreachable (e1 e2 : event) :
    is_find e1 = true -> is_neighbor e2 = true ->
    way cfg buf len s
      (Run (Returned (- ENETUNREACH)) (Some s)
           [e1; e2; EvLog LogError "ERROR: Not reachable"])
| way_translator_stops (pre : list event) (f : fault) :
    routing_prefix cfg pre ->
    way cfg buf len s
      (Run (Stopped f) (Some (in_state _SF_SEND s))
           (pre ++ [EvSetFlags (to_uint8 (_SS_SETSTATE (s_flags s) _SF_SEND))]))
| way_dispatched (pre : list event) (d : net_driver_s) (mac : rimeaddr_s) :
    routing_prefix cfg pre ->
    way cfg buf len s
      (Run (Returned (send_answer cfg mac d buf len s))
           (Some (in_state _SF_IDLE s))
           (pre ++ send_events cfg mac d buf len s)).

(** A build without IPv4 and without debug assertions. *)

Definition ipv6_only (cfg : config) : bool :=
  negb (CONFIG_DEBUG_ASSERTIONS cfg) && negb (CONFIG_NET_IPv4 cfg).

(** ** Sample builds, collaborators and objects *)

Module Sample.

Definition release_build : config :=
  Config false false true true true true true.

Definition debug_build : config :=
  Config true false true true true true true.

(** A build without debug assertions and without IPv4. *)

Definition ipv6_build : config :=
  Config false false false true true true true.

(** An IPv6 header for TCP (next header 6), destination
    fe80::ff:fe00:abcd, an empty TCP header and two bytes of payload. *)

Definition packet : list Z :=
  [96; 0; 0; 0; 0; 22; 6; 64] ++ repeat 0 16
  ++ [254; 128; 0; 0; 0; 0; 0; 0; 0; 0; 0; 255; 254; 0; 171; 205]
  ++ repeat 0 20 ++ [104; 105].

Definition radio (len : Z) : net_driver_s :=
  NetDriver NET_LL_IEEE802154 len packet.

(** Collaborators that find [found], answer [neigh] for the neighbour
    table and [sent] for a dispatch; the dispatcher of the state-machine
    path leaves a length of 7 behind in the device.  For the addresses
    of a NULL connection the registry and the neighbour table answer the
    same without reading, and the translator, which reads, stops. *)

Definition collaborators (found : option net_driver_s) (neigh sent : Z)
  : Collaborators := {|
  netdev_findby_ipv6addr := fun _ => found;
  icmpv6_neighbor := fun _ => neigh;
  sixlowpan_rimefromip := fun a => skipn 14 a;
  sixlowpan_send := fun _ _ _ _ _ _ => sent;
  sixlowpan_queue_frames := fun d _ _ _ _ => (sent, set_d_len 7 d);
  ipv6tcp_indeterminate := [];
  netdev_findby_ipv6addr_null := Returned found;
  icmpv6_neighbor_null := Returned neigh;
  sixlowpan_rimefromip_null := Stopped NullDereference
|}.

Definition peer : tcp_conn_s :=
  TcpConn PF_INET6 (repeat 0 15 ++ [1])
          [254; 128; 0; 0; 0; 0; 0; 0; 0; 0; 0; 255; 254; 0; 171; 205].

(** A referenced, connected stream socket, idle. *)

Definition connected : socket :=
  Socket 1 SOCK_STREAM _SF_CONNECTED 0 (Some peer).

(** A referenced stream socket that is not connected. *)

Definition unconnected : socket :=
  Socket 1 SOCK_STREAM 0 0 (Some peer).

(** A referenced, connected datagram socket. *)

Definition datagram : socket :=
  Socket 1 SOCK_DGRAM _SF_CONNECTED 0 (Some peer).

(** A connected stream socket over IPv4. *)

Definition peer_v4 : tcp_conn_s :=
  TcpConn PF_INET [127; 0; 0; 1] [10; 0; 0; 2].

Definition connected_v4 : socket :=
  Socket 1 SOCK_STREAM _SF_CONNECTED 0 (Some peer_v4).

(** A connected stream socket whose connection pointer is NULL. *)

Definition orphan : socket :=
  Socket 1 SOCK_STREAM _SF_CONNECTED 0 None.

(** A connected stream socket with a send timeout, in the state of a
    pending receive (state 2). *)

Definition receiving : socket :=
  Socket 1 SOCK_STREAM (_SF_CONNECTED + 2) 30 (Some peer).

(** A device of another link layer. *)

Definition ethernet : net_driver_s :=
  NetDriver NET_LL_ETHERNET 0 packet.

(** A buffer that declares UDP (next header 17). *)

Definition udp_radio (len : Z) : net_driver_s :=
  NetDriver NET_LL_IEEE802154 len
    ([96; 0; 0; 0; 0; 22; 17; 64] ++ repeat 0 54).

End Sample.

(** * Properties *)

Unset Implicit Arguments.

(** ** The state field of the flags *)





(** ** Unfolding runs *)

Ltac unfold_stmt :=
  unfold DEBUGASSERT, c_and, c_or, assign_s_flags, find_device, neighbor,
    send_frames, queue_frames, nerr, nwarn, emit, deref, load, store,
    nonnull, bind, ret, stop in *.

Ltac step := cbn [outcome final trace negb].

(** ** sixlowpan_tcp_send, case by case *)

Section FlushRuns.

Context {E : Collaborators}.
Variable cfg : config.

Lemma flush_not_tcp (dev : net_driver_s) (tr : list event) :
  0 < d_len dev ->
  ~ declares_tcp dev ->
  sixlowpan_tcp_send cfg (Some dev) tr =
  Run (Returned tt) (Some (set_d_len 0 dev))
      (tr ++ [EvLog LogWarning "WARNING: Expected TCP protoype: %u"]).
Proof.
  intros Hlen Hproto.
  apply Z.ltb_lt in Hlen. apply Z.eqb_neq in Hproto.
  unfold sixlowpan_tcp_send. unfold_stmt.
  destruct (CONFIG_DEBUG_ASSERTIONS cfg);
    repeat progress (step; rewrite ?Hlen, ?Hproto); reflexivity.
Qed.

Lemma flush_too_long (dev : net_driver_s) (tr : list event) :
  declares_tcp dev ->
  hdrlen < d_len dev ->
  sixlowpan_tcp_send cfg (Some dev) tr =
  Run (Returned tt) (Some (set_d_len 0 dev))
      (tr ++ [EvLog LogWarning "WARNING: Packet to small:  Have %u need >%u"]).
Proof.
  intros Hproto Hlen.
  assert (Hpos : (0 <? d_len dev) = true).
  { apply Z.ltb_lt. unfold hdrlen, IPv6_HDRLEN, TCP_HDRLEN in Hlen. lia. }
  apply Z.ltb_lt in Hlen. apply Z.eqb_eq in Hproto.
  unfold sixlowpan_tcp_send. unfold_stmt. fold hdrlen.
  destruct (CONFIG_DEBUG_ASSERTIONS cfg);
    repeat progress (step; rewrite ?Hpos, ?Hproto, ?Hlen); reflexivity.
Qed.

Lemma flush_dispatch (dev : net_driver_s) (tr : list event) :
  declares_tcp dev ->
  0 < d_len dev <= hdrlen ->
  sixlowpan_tcp_send cfg (Some dev) tr =
  let q := sixlowpan_queue_frames dev 0 hdrlen (flush_payload_len cfg dev)
                                  (flush_destmac dev) in
  Run (Returned tt) (Some (set_d_len 0 (snd q)))
      (tr ++ [EvQueueFrames dev 0 hdrlen (flush_payload_len cfg dev)
                            (flush_destmac dev) (fst q)]).
Proof.
  intros Hproto [Hpos Hlen].
  assert (Hle : (hdrlen <? d_len dev) = false) by (apply Z.ltb_ge; lia).
  apply Z.ltb_lt in Hpos. apply Z.eqb_eq in Hproto.
  unfold sixlowpan_tcp_send, flush_payload_len, flush_destmac. unfold_stmt.
  fold hdrlen.
  destruct (CONFIG_DEBUG_ASSERTIONS cfg);
    repeat progress (step; rewrite ?Hpos, ?Hproto, ?Hle); reflexivity.
Qed.

Lemma flush_nothing_pending (dev : net_driver_s) (tr : list event) :
  d_len dev <= 0 ->
  sixlowpan_tcp_send cfg (Some dev) tr =
  if CONFIG_DEBUG_ASSERTIONS cfg
  then Run (Stopped AssertionFailed) (Some dev) tr
  else Run (Returned tt) (Some (set_d_len 0 dev)) tr.
Proof.
  intros Hlen. apply Z.ltb_ge in Hlen.
  unfold sixlowpan_tcp_send. unfold_stmt.
  destruct (CONFIG_DEBUG_ASSERTIONS cfg);
    repeat progress (step; rewrite ?Hlen); reflexivity.
Qed.

Lemma declares_tcp_dec (dev : net_driver_s) :
  {declares_tcp dev} + {~ declares_tcp dev}.
Proof. apply Z.eq_dec. Qed.

End FlushRuns.

(** ** Claims about sixlowpan_tcp_send *)

(** C3.  The size test of the state-machine path is the reverse of a
    minimum-size test.  With a TCP header declared, a buffer of 62 valid
    bytes, two more than the combined IPv6 and TCP headers, is dropped
    with the warning that the packet is too small, and a buffer of 59
    valid bytes, one fewer than the headers, is handed to the dispatcher,
    with a payload length of -1 in the arithmetic of size_t. *)
Theorem flush_size_test_reversed {E : Collaborators} (cfg : config) :
  declares_tcp (Sample.radio 62) /\
  declares_tcp (Sample.radio 59) /\
  trace (sixlowpan_tcp_send cfg (Some (Sample.radio 62)) []) =
    [EvLog LogWarning "WARNING: Packet to small:  Have %u need >%u"] /\
  trace (sixlowpan_tcp_send cfg (Some (Sample.radio 59)) []) =
    [EvQueueFrames (Sample.radio 59) 0 hdrlen (to_size_t cfg (-1))
       (flush_destmac (Sample.radio 59))
       (fst (sixlowpan_queue_frames (Sample.radio 59) 0 hdrlen
               (to_size_t cfg (-1)) (flush_destmac (Sample.radio 59))))].
Proof.
  assert (H62 : declares_tcp (Sample.radio 62)) by reflexivity.
  assert (H59 : declares_tcp (Sample.radio 59)) by reflexivity.
  repeat split; trivial.
  - rewrite flush_too_long; [reflexivity | assumption | reflexivity].
  - rewrite flush_dispatch; [reflexivity | assumption | ].
    split; [reflexivity | discriminate].
Qed.

(** C6.  For every device with a positive valid length, the call returns
    and leaves the valid length of the device at zero, whatever the
    buffer declares, whatever its length, and whatever the dispatcher
    answers or does to the device. *)
Theorem flush_clears_length {E : Collaborators} (cfg : config)
    (dev : net_driver_s) :
  0 < d_len dev ->
  outcome (sixlowpan_tcp_send cfg (Some dev) []) = Returned tt /\
  exists dev',
    final (sixlowpan_tcp_send cfg (Some dev) []) = Some dev' /\
    d_len dev' = 0.
Proof.
  intros Hpos.
  destruct (declares_tcp_dec dev) as [Htcp | Hother].
  - destruct (Z_lt_le_dec hdrlen (d_len dev)) as [Hlong | Hshort].
    + rewrite flush_too_long by assumption.
      split; [reflexivity | eexists; split; reflexivity].
    + rewrite flush_dispatch by (try assumption; split; assumption).
      split; [reflexivity | eexists; split; reflexivity].
  - rewrite flush_not_tcp by assumption.
    split; [reflexivity | eexists; split; reflexivity].
Qed.

(** The length is cleared after a dispatch that fails and that has left
    a length of 7 in the device. *)
Lemma flush_clears_length_witness :
  0 < d_len (Sample.radio 60) /\
  outcome (sixlowpan_tcp_send (E := Sample.collaborators None 0 (-5))
             Sample.release_build (Some (Sample.radio 60)) []) = Returned tt /\
  exists dev',
    final (sixlowpan_tcp_send (E := Sample.collaborators None 0 (-5))
             Sample.release_build (Some (Sample.radio 60)) []) = Some dev' /\
    d_len dev' = 0.
Proof.
  split.
  - reflexivity.
  - apply (flush_clears_length (E := Sample.collaborators None 0 (-5))
             Sample.release_build (Sample.radio 60)).
    reflexivity.
Defined.

(** C8, as stated, fails in a build with debug assertions: the call on a
    device whose valid length is zero does not return, the assertion at
    the entry of the function stops it. *)
Lemma flush_drained_stops_debug_build :
  d_len (Sample.radio 0) = 0 /\
  ~ flush_is_noop (E := Sample.collaborators None 0 0)
      Sample.debug_build (Sample.radio 0).
Proof.
  split; [reflexivity | ].
  unfold flush_is_noop. vm_compute. discriminate.
Qed.

(** C8, amended.  On a device whose valid length is zero the call
    dispatches nothing, logs nothing and leaves the device as it was; it
    returns when debug assertions are compiled out, and is stopped by the
    assertion at its entry when they are compiled in. *)
Theorem flush_drained_device {E : Collaborators} (cfg : config)
    (dev : net_driver_s) :
  d_len dev = 0 ->
  sixlowpan_tcp_send cfg (Some dev) [] =
  Run (if CONFIG_DEBUG_ASSERTIONS cfg
       then Stopped AssertionFailed else Returned tt)
      (Some dev) [].
Proof.
  intros Hlen.
  rewrite flush_nothing_pending by lia.
  destruct (CONFIG_DEBUG_ASSERTIONS cfg); [reflexivity | ].
  destruct dev as [ll len buf]; simpl in Hlen; subst len; reflexivity.
Qed.

Lemma flush_drained_device_witness :
  d_len (Sample.radio 0) = 0 /\
  flush_is_noop (E := Sample.collaborators None 0 0)
    Sample.release_build (Sample.radio 0).
Proof.
  split.
  - reflexivity.
  - exact (flush_drained_device (E := Sample.collaborators None 0 0)
             Sample.release_build (Sample.radio 0) eq_refl).
Defined.

(** C9.  When the buffer declares TCP and its valid length is exactly the
    combined length of the IPv6 and TCP headers, the call does not skip:
    its one event is the call of the dispatcher, with the header at the
    start of the buffer, the payload right after the two headers, a
    payload length of zero and the link address derived from the
    destination address of the header; and it returns. *)
Theorem flush_headers_only_dispatches {E : Collaborators} (cfg : config)
    (dev : net_driver_s) :
  declares_tcp dev ->
  d_len dev = IPv6_HDRLEN + TCP_HDRLEN ->
  outcome (sixlowpan_tcp_send cfg (Some dev) []) = Returned tt /\
  trace (sixlowpan_tcp_send cfg (Some dev) []) =
    [EvQueueFrames dev 0 (IPv6_HDRLEN + TCP_HDRLEN) 0
       (sixlowpan_rimefromip (ipv6hdr_destipaddr (d_buf dev)))
       (fst (sixlowpan_queue_frames dev 0 (IPv6_HDRLEN + TCP_HDRLEN) 0
               (sixlowpan_rimefromip (ipv6hdr_destipaddr (d_buf dev)))))].
Proof.
  intros Htcp Hlen. fold hdrlen in Hlen |- *.
  assert (Hzero : flush_payload_len cfg dev = 0).
  { unfold flush_payload_len, to_size_t. rewrite Hlen, Z.sub_diag.
    apply Z.mod_0_l. unfold size_t_bits.
    destruct (CONFIG_SMALL_MEMORY cfg); discriminate. }
  rewrite flush_dispatch.
  - cbn zeta. rewrite Hzero. split; reflexivity.
  - assumption.
  - rewrite Hlen. split; [reflexivity | apply Z.le_refl].
Qed.

Lemma flush_headers_only_dispatches_witness :
  declares_tcp (Sample.radio 60) /\
  d_len (Sample.radio 60) = IPv6_HDRLEN + TCP_HDRLEN /\
  trace (sixlowpan_tcp_send (E := Sample.collaborators None 0 0)
           Sample.release_build (Some (Sample.radio 60)) []) =
    [EvQueueFrames (Sample.radio 60) 0 60 0 [171; 205] 0].
Proof.
  split; [reflexivity | split; [reflexivity | ]].
  exact (proj2 (flush_headers_only_dispatches
                  (E := Sample.collaborators None 0 0)
                  Sample.release_build (Sample.radio 60) eq_refl eq_refl)).
Defined.

(** ** The flags across a send *)

Lemma uint8_idle_after_send (f : Z) :
  to_uint8 (_SS_SETSTATE (to_uint8 (_SS_SETSTATE f _SF_SEND)) _SF_IDLE)
  = to_uint8 (_SS_SETSTATE f _SF_IDLE).
Proof.
  unfold to_uint8, _SS_SETSTATE, _SF_SEND, _SF_IDLE, _SF_MASK.
  rewrite <- !Z.land_ones by lia.
  apply Z.bits_inj'. intros n Hn.
  repeat rewrite ?Z.land_spec, ?Z.lor_spec, ?Z.lnot_spec, ?Z.bits_0
    by assumption.
  destruct (Z.testbit f n), (Z.testbit 3 n), (Z.testbit (Z.ones 8) n);
    reflexivity.
Qed.

Lemma idle_keeps_others (f : Z) :
  Z.land (to_uint8 (_SS_SETSTATE f _SF_IDLE)) _SF_OTHERS = Z.land f _SF_OTHERS.
Proof.
  unfold to_uint8, _SS_SETSTATE, _SF_IDLE, _SF_MASK, _SF_OTHERS.
  rewrite <- !Z.land_ones by lia.
  change 252 with (Z.land (Z.ones 8) (Z.lnot 3)).
  apply Z.bits_inj'. intros n Hn.
  repeat rewrite ?Z.land_spec, ?Z.lor_spec, ?Z.lnot_spec, ?Z.bits_0
    by assumption.
  destruct (Z.testbit f n), (Z.testbit 3 n), (Z.testbit (Z.ones 8) n);
    reflexivity.
Qed.

Lemma others_decide_connected (f g : Z) :
  Z.land f _SF_OTHERS = Z.land g _SF_OTHERS ->
  _SS_ISCONNECTED f = _SS_ISCONNECTED g.
Proof.
  intros Heq. unfold _SS_ISCONNECTED, _SF_CONNECTED.
  change 64 with (Z.land _SF_OTHERS 64).
  rewrite !Z.land_assoc, Heq. reflexivity.
Qed.

(** ** psock_6lowpan_tcp_send, part by part *)

Lemma send_keeps_others (f : Z) :
  Z.land (to_uint8 (_SS_SETSTATE f _SF_SEND)) _SF_OTHERS = Z.land f _SF_OTHERS.
Proof.
  unfold to_uint8, _SS_SETSTATE, _SF_SEND, _SF_MASK, _SF_OTHERS.
  rewrite <- !Z.land_ones by lia.
  change 252 with (Z.land (Z.ones 8) (Z.lnot 3)).
  apply Z.bits_inj'. intros n Hn.
  repeat rewrite ?Z.land_spec, ?Z.lor_spec, ?Z.lnot_spec, ?Z.bits_0
    by assumption.
  destruct (Z.testbit f n), (Z.testbit 3 n), (Z.testbit (Z.ones 8) n);
    reflexivity.
Qed.



Lemma quiet_no_dispatch {tr : list event} {e : event} :
  quiet tr -> In e tr -> is_dispatch e = true -> False.
Proof.
  intros [_ Hdisp] Hin He.
  assert (Hex : existsb is_dispatch tr = true).
  { apply existsb_exists. exists e. split; assumption. }
  congruence.
Qed.


Lemma find_is_quiet (e : event) :
  is_find e = true ->
  is_flag_write e = false /\ is_dispatch e = false /\ is_send e = false
  /\ is_neighbor e = false.
Proof. destruct e; simpl; intros H; try discriminate H; repeat split. Qed.

Lemma neighbor_is_quiet (e : event) :
  is_neighbor e = true ->
  is_flag_write e = false /\ is_dispatch e = false /\ is_send e = false
  /\ is_find e = false.
Proof. destruct e; simpl; intros H; try discriminate H; repeat split. Qed.

Lemma prefix_quiet {cfg : config} {pre : list event} :
  routing_prefix cfg pre -> quiet pre.
Proof.
  intros [_ (e1 & rest & H1 & -> & [-> | (e2 & H2 & ->)])];
    destruct (find_is_quiet e1 H1) as (Hf1 & Hd1 & _);
    try destruct (neighbor_is_quiet e2 H2) as (Hf2 & Hd2 & _);
    split; simpl; rewrite ?Hf1, ?Hd1, ?Hf2, ?Hd2; reflexivity.
Qed.

Lemma prefix_counts {cfg : config} {pre : list event} :
  routing_prefix cfg pre ->
  (count is_find pre = 1 /\ count is_neighbor pre <= 1 /\
   count is_send pre = 0 /\ count is_flag_write pre = 0)%nat.
Proof.
  intros [_ (e1 & rest & H1 & -> & [-> | (e2 & H2 & ->)])];
    destruct (find_is_quiet e1 H1) as (Hf1 & _ & Hs1 & Hn1);
    try destruct (neighbor_is_quiet e2 H2) as (Hf2 & _ & Hs2 & Hn2);
    unfold count; simpl;
    rewrite ?H1, ?H2, ?Hf1, ?Hs1, ?Hn1, ?Hf2, ?Hs2, ?Hn2; simpl;
    repeat split; lia.
Qed.

(** Equations of the monad, for runs taken one statement at a time. *)

Lemma bind_ret {S A B} (a : A) (k : A -> M S B) (s : S) (tr : list event) :
  bind (ret a) k s tr = k a s tr.
Proof. reflexivity. Qed.

Lemma bind_emit {S B} (e : event) (k : unit -> M S B) (s : S)
    (tr : list event) :
  bind (emit e) k s tr = k tt s (tr ++ [e]).
Proof. reflexivity. Qed.

Lemma bind_lift {S A B} (x : result A) (k : A -> M S B) (s : S)
    (tr : list event) :
  bind (lift x) k s tr =
  match x with
  | Returned a => k a s tr
  | Stopped f => Run (Stopped f) s tr
  end.
Proof. destruct x; reflexivity. Qed.

Lemma bind_load {T A B} (field : T -> A) (k : A -> M (option T) B) (o : T)
    (tr : list event) :
  bind (load field) k (Some o) tr = k (field o) (Some o) tr.
Proof. reflexivity. Qed.

Lemma bind_store {T B} (upd : T -> T) (k : unit -> M (option T) B) (o : T)
    (tr : list event) :
  bind (store upd) k (Some o) tr = k tt (Some (upd o)) tr.
Proof. reflexivity. Qed.

Lemma bind_bind {S A B C} (m : M S A) (f : A -> M S B) (g : B -> M S C)
    (s : S) (tr : list event) :
  bind (bind m f) g s tr = bind m (fun x => bind (f x) g) s tr.
Proof. unfold bind. destruct (outcome (m s tr)); reflexivity. Qed.

Lemma lookup_args_fields (cfg : config) (c : tcp_conn_s) :
  map (fun field : tcp_conn_s -> net_ipv6addr_t => field c)
      (if CONFIG_NETDEV_MULTINIC cfg then [laddr; raddr] else [raddr])
  = lookup_args cfg c.
Proof. unfold lookup_args. destruct (CONFIG_NETDEV_MULTINIC cfg); reflexivity. Qed.

Lemma net_lltype_eqb_eq (a b : net_lltype) :
  net_lltype_eqb a b = true -> a = b.
Proof. destruct a, b; simpl; congruence. Qed.

Section SocketRuns.

Context {E : Collaborators}.
Variable cfg : config.

(** The last part: it ends with the answer of the dispatcher, or it is
    stopped by the translator between the write of the sending state and
    the call of the dispatcher. *)

Lemma dispatch_shape (conn : option tcp_conn_s) (d : net_driver_s)
    (buf : list Z) (len : Z) (s : socket) (tr : list event) :
  tcp_send_dispatch cfg conn d buf len (Some s) tr =
  match translator_answer conn with
  | Returned mac =>
      Run (Returned (send_answer cfg mac d buf len s))
          (Some (in_state _SF_IDLE s))
          (tr ++ send_events cfg mac d buf len s)
  | Stopped f =>
      Run (Stopped f) (Some (in_state _SF_SEND s))
          (tr ++ [EvSetFlags (to_uint8 (_SS_SETSTATE (s_flags s) _SF_SEND))])
  end.
Proof.
  unfold tcp_send_dispatch, send_events, send_answer, dispatch_timeout,
    translator_answer, in_state.
  unfold assign_s_flags, send_frames, nerr, rimefromip_at.
  rewrite bind_load, bind_bind, bind_store, bind_emit.
  assert (Hrest : forall mac : rimeaddr_s,
    bind (if CONFIG_NET_SOCKOPTS cfg then load s_sndtimeo else ret 0)
      (fun timeout : Z =>
       bind
         (bind
            (emit
               (EvSend d ipv6tcp_indeterminate buf len mac timeout
                  (sixlowpan_send d ipv6tcp_indeterminate buf len mac timeout)))
            (fun _ : unit =>
             ret (sixlowpan_send d ipv6tcp_indeterminate buf len mac timeout)))
         (fun r : Z =>
          bind
            (if r <? 0
             then emit (EvLog LogError "ERROR: sixlowpan_send() failed: %d")
             else ret tt)
            (fun _ : unit =>
             bind (load s_flags)
               (fun f' : Z =>
                bind
                  (bind (store (set_s_flags (_SS_SETSTATE f' _SF_IDLE)))
                     (fun _ : unit =>
                      emit (EvSetFlags (to_uint8 (_SS_SETSTATE f' _SF_IDLE)))))
                  (fun _ : unit => ret r)))))
      (Some (set_s_flags (_SS_SETSTATE (s_flags s) _SF_SEND) s))
      (tr ++ [EvSetFlags (to_uint8 (_SS_SETSTATE (s_flags s) _SF_SEND))])
    = Run (Returned
             (sixlowpan_send d ipv6tcp_indeterminate buf len mac
                (if CONFIG_NET_SOCKOPTS cfg then s_sndtimeo s else 0)))
          (Some (set_s_flags (_SS_SETSTATE (s_flags s) _SF_IDLE) s))
          (tr ++
           [EvSetFlags (to_uint8 (_SS_SETSTATE (s_flags s) _SF_SEND));
            EvSend d ipv6tcp_indeterminate buf len mac
              (if CONFIG_NET_SOCKOPTS cfg then s_sndtimeo s else 0)
              (sixlowpan_send d ipv6tcp_indeterminate buf len mac
                 (if CONFIG_NET_SOCKOPTS cfg then s_sndtimeo s else 0))] ++
           (if sixlowpan_send d ipv6tcp_indeterminate buf len mac
                 (if CONFIG_NET_SOCKOPTS cfg then s_sndtimeo s else 0) <? 0
            then [EvLog LogError "ERROR: sixlowpan_send() failed: %d"]
            else []) ++
           [EvSetFlags
              (to_uint8
                 (_SS_SETSTATE
                    (to_uint8 (_SS_SETSTATE (s_flags s) _SF_SEND)) _SF_IDLE))])).
  { intros mac.
    destruct (CONFIG_NET_SOCKOPTS cfg);
      rewrite ?bind_load, ?bind_ret, bind_bind, bind_emit, bind_ret;
      cbn [s_flags set_s_flags s_sndtimeo];
      match goal with
      | |- context [?r <? 0] => destruct (r <? 0)
      end;
      rewrite ?bind_emit, ?bind_ret, bind_load, bind_bind, bind_store,
        bind_emit;
      cbn [s_flags set_s_flags s_sndtimeo s_crefs s_type s_conn]; unfold ret;
      rewrite <- ?app_assoc;
      unfold set_s_flags;
      cbn [s_crefs s_type s_flags s_sndtimeo s_conn];
      rewrite !uint8_idle_after_send; reflexivity. }
  destruct conn as [c |].
  - rewrite bind_ret. apply Hrest.
  - rewrite bind_lift.
    destruct sixlowpan_rimefromip_null as [mac | f];
      [apply Hrest | reflexivity].
Qed.

Lemma dispatch_run (c : tcp_conn_s) (d : net_driver_s) (buf : list Z)
    (len : Z) (s : socket) (tr : list event) :
  tcp_send_dispatch cfg (Some c) d buf len (Some s) tr =
  Run (Returned (dispatch_result cfg c d buf len s))
      (Some (in_state _SF_IDLE s))
      (tr ++ dispatch_events cfg c d buf len s).
Proof. rewrite dispatch_shape. reflexivity. Qed.



Lemma events_verbatim (mac : rimeaddr_s) (d : net_driver_s)
    (buf : list Z) (len : Z) (s : socket) (pre : list event)
    (dev : net_driver_s) (hdr b : list Z) (l : Z) (mac' : rimeaddr_s)
    (timeout v : Z) :
  quiet pre ->
  In (EvSend dev hdr b l mac' timeout v)
     (pre ++ send_events cfg mac d buf len s) ->
  send_answer cfg mac d buf len s = v /\
  v = sixlowpan_send dev hdr b l mac' timeout.
Proof.
  intros Hquiet Hin. apply in_app_or in Hin as [Hin | Hin].
  - exfalso. exact (quiet_no_dispatch Hquiet Hin eq_refl).
  - unfold send_events in Hin.
    simpl in Hin. destruct Hin as [Hin | [Hin | Hin]]; try discriminate.
    + injection Hin as <- <- <- <- <- <- <-. split; reflexivity.
    + destruct (send_answer cfg mac d buf len s <? 0); simpl in Hin;
        repeat (destruct Hin as [Hin | Hin]; try discriminate);
        contradiction.
Qed.

End SocketRuns.

(** ** The ways through the statements after the test of the socket *)

Section SocketPaths.

Context {E : Collaborators}.
Variable cfg : config.

Lemma path_unconnected (buf : list Z) (len : Z) (s : socket)
    (tr : list event) :
  established s = false ->
  tcp_send_validated cfg buf len (Some s) tr =
  Run (Returned (- ENOTCONN)) (Some s)
      (tr ++ [EvLog LogError "ERROR: Not connected"]).
Proof.
  unfold established. intros Hest.
  unfold tcp_send_validated. unfold_stmt. step.
  destruct (sock_type_eqb (s_type s) SOCK_STREAM); step; [ | reflexivity].
  simpl in Hest. rewrite Hest. reflexivity.
Qed.

(** Past the test of line 105 the connection pointer is read from the
    socket; it is tested by the assertion and read through for the
    domain, each where it is compiled in, and handed on to the routing
    otherwise. *)

Lemma path_established (buf : list Z) (len : Z) (s : socket)
    (tr : list event) :
  established s = true ->
  tcp_send_validated cfg buf len (Some s) tr =
  match s_conn s with
  | Some c =>
      if serves_family cfg c
      then tcp_send_route cfg (Some c) buf len (Some s) tr
      else Run (Returned (- EPROTOTYPE)) (Some s)
               (tr ++ [EvLog LogWarning "WARNING: Not IPv6"])
  | None =>
      if ipv6_only cfg
      then tcp_send_route cfg None buf len (Some s) tr
      else Run (Stopped (if CONFIG_DEBUG_ASSERTIONS cfg
                         then AssertionFailed else NullDereference))
               (Some s) tr
  end.
Proof.
  unfold established, serves_family, ipv6_only. intros Hest.
  apply andb_true_iff in Hest as [Htype Hflag].
  unfold tcp_send_validated. unfold_stmt.
  destruct (s_conn s) as [c |] eqn:Hconn;
    repeat progress (step; rewrite ?Htype, ?Hflag, ?Hconn);
    destruct (CONFIG_DEBUG_ASSERTIONS cfg), (CONFIG_NET_IPv4 cfg);
    cbn [negb andb orb]; step; try reflexivity;
    destruct (sa_family_eqb (domain c) PF_INET6); reflexivity.
Qed.

(** The routing part, for the addresses inside the connection [conn]
    points to, NULL or not. *)

Lemma route_equation (conn : option tcp_conn_s) (buf : list Z) (len : Z)
    (s : socket) (tr : list event) :
  tcp_send_route cfg conn buf len (Some s) tr =
  match find_answer cfg conn with
  | Stopped f => Run (Stopped f) (Some s) (tr ++ [find_event cfg conn])
  | Returned found =>
      match found with
      | Some d =>
          if link_accepted cfg d
          then
            if CONFIG_NET_ICMPv6_NEIGHBOR cfg
            then
              match neighbor_result conn with
              | Stopped f =>
                  Run (Stopped f) (Some s)
                      (tr ++ [find_event cfg conn; neighbor_event conn])
              | Returned r =>
                  if r <? 0
                  then Run (Returned (- ENETUNREACH)) (Some s)
                           (tr ++ [find_event cfg conn; neighbor_event conn;
                                   EvLog LogError "ERROR: Not reachable"])
                  else tcp_send_dispatch cfg conn d buf len (Some s)
                         (tr ++ [find_event cfg conn; neighbor_event conn])
              end
            else tcp_send_dispatch cfg conn d buf len (Some s)
                   (tr ++ [find_event cfg conn])
          else Run (Returned (- ENETUNREACH)) (Some s)
                   (tr ++ [find_event cfg conn; not_routable_warning cfg])
      | None => Run (Returned (- ENETUNREACH)) (Some s)
                    (tr ++ [find_event cfg conn; not_routable_warning cfg])
      end
  end.
Proof.
  unfold tcp_send_route, find_device_at, neighbor_at, find_device, neighbor,
    link_accepted, not_routable_warning, nwarn, nerr.
  destruct conn as [c |]; cbn [find_answer find_event neighbor_result
                                neighbor_event].
  - rewrite lookup_args_fields, bind_bind, bind_emit, bind_ret.
    destruct (netdev_findby_ipv6addr (lookup_args cfg c)) as [d |];
      [ | rewrite bind_emit, <- app_assoc; reflexivity].
    destruct (CONFIG_NETDEV_MULTILINK cfg); cbn [andb negb orb].
    + destruct (net_lltype_eqb (d_lltype d) NET_LL_IEEE802154);
        cbn [negb]; [ | rewrite bind_emit, <- app_assoc; reflexivity].
      destruct (CONFIG_NET_ICMPv6_NEIGHBOR cfg); [ | reflexivity].
      rewrite bind_bind, bind_emit, bind_ret, <- app_assoc.
      destruct (icmpv6_neighbor (raddr c) <? 0); [ | reflexivity].
      rewrite bind_emit, <- app_assoc. reflexivity.
    + destruct (CONFIG_NET_ICMPv6_NEIGHBOR cfg); [ | reflexivity].
      rewrite bind_bind, bind_emit, bind_ret, <- app_assoc.
      destruct (icmpv6_neighbor (raddr c) <? 0); [ | reflexivity].
      rewrite bind_emit, <- app_assoc. reflexivity.
  - rewrite bind_bind, bind_emit, bind_lift.
    destruct netdev_findby_ipv6addr_null as [[d |] | f];
      [ | rewrite bind_emit, <- app_assoc; reflexivity | reflexivity].
    destruct (CONFIG_NETDEV_MULTILINK cfg); cbn [andb negb orb].
    + destruct (net_lltype_eqb (d_lltype d) NET_LL_IEEE802154);
        cbn [negb]; [ | rewrite bind_emit, <- app_assoc; reflexivity].
      destruct (CONFIG_NET_ICMPv6_NEIGHBOR cfg); [ | reflexivity].
      rewrite bind_bind, bind_emit, bind_lift, <- app_assoc.
      destruct icmpv6_neighbor_null as [r | f]; [ | reflexivity].
      destruct (r <? 0); [ | reflexivity].
      rewrite bind_emit, <- app_assoc. reflexivity.
    + destruct (CONFIG_NET_ICMPv6_NEIGHBOR cfg); [ | reflexivity].
      rewrite bind_bind, bind_emit, bind_lift, <- app_assoc.
      destruct icmpv6_neighbor_null as [r | f]; [ | reflexivity].
      destruct (r <? 0); [ | reflexivity].
      rewrite bind_emit, <- app_assoc. reflexivity.
Qed.

Lemma find_event_is_find (conn : option tcp_conn_s) :
  is_find (find_event cfg conn) = true.
Proof. destruct conn; reflexivity. Qed.

Lemma neighbor_event_is_neighbor (conn : option tcp_conn_s) :
  is_neighbor (neighbor_event conn) = true.
Proof. destruct conn; reflexivity. Qed.

Lemma find_event_found (conn : option tcp_conn_s)
    (found : option net_driver_s) :
  find_answer cfg conn = Returned found ->
  found_device (find_event cfg conn) = found.
Proof.
  destruct conn; cbn [find_answer find_event found_device]; intros H.
  - injection H as <-. reflexivity.
  - rewrite H. reflexivity.
Qed.

Lemma neighbor_event_answer (conn : option tcp_conn_s) (r : Z) :
  neighbor_result conn = Returned r ->
  neighbor_answer (neighbor_event conn) = Some r.
Proof.
  destruct conn; cbn [neighbor_result neighbor_event neighbor_answer];
    intros H.
  - injection H as <-. reflexivity.
  - rewrite H. reflexivity.
Qed.

Lemma route_ways (conn : option tcp_conn_s) (buf : list Z) (len : Z)
    (s : socket) :
  way cfg buf len s (tcp_send_route cfg conn buf len (Some s) []).
Proof.
  rewrite route_equation. cbn [app].
  pose proof (find_event_is_find conn) as Hfind.
  pose proof (neighbor_event_is_neighbor conn) as Hneigh.
  destruct (find_answer cfg conn) as [[d |] | f] eqn:Hans;
    [ | apply way_no_device; exact Hfind
      | apply way_find_stops; exact Hfind].
  apply find_event_found in Hans.
  destruct (link_accepted cfg d) eqn:Hlink;
    [ | apply way_no_device; exact Hfind].
  assert (Hll : CONFIG_NETDEV_MULTILINK cfg = true ->
                d_lltype d = NET_LL_IEEE802154).
  { intros Hm. unfold link_accepted in Hlink. rewrite Hm in Hlink.
    apply net_lltype_eqb_eq. exact Hlink. }
  destruct (CONFIG_NET_ICMPv6_NEIGHBOR cfg) eqn:Hcfg.
  - destruct (neighbor_result conn) as [r | f] eqn:Hres;
      [ | apply way_neighbor_stops; assumption].
    apply neighbor_event_answer in Hres.
    destruct (r <? 0) eqn:Hr; [apply way_unreachable; assumption | ].
    assert (Hpre : routing_prefix cfg [find_event cfg conn; neighbor_event conn]).
    { split.
      - split.
        + exists (find_event cfg conn), d.
          split; [left; reflexivity | split; assumption].
        + intros _. exists (neighbor_event conn), r.
          split; [right; left; reflexivity | ].
          split; [exact Hres | apply Z.ltb_ge; exact Hr].
      - exists (find_event cfg conn), [neighbor_event conn].
        split; [exact Hfind | split; [reflexivity | ]].
        right. exists (neighbor_event conn). split; [exact Hneigh | reflexivity]. }
    rewrite dispatch_shape.
    destruct (translator_answer conn) as [mac | f].
    + apply way_dispatched. exact Hpre.
    + apply way_translator_stops. exact Hpre.
  - assert (Hpre : routing_prefix cfg [find_event cfg conn]).
    { split.
      - split.
        + exists (find_event cfg conn), d.
          split; [left; reflexivity | split; assumption].
        + intros Habs. rewrite Hcfg in Habs. discriminate Habs.
      - exists (find_event cfg conn), [].
        split; [exact Hfind | split; [reflexivity | left; reflexivity]]. }
    rewrite dispatch_shape.
    destruct (translator_answer conn) as [mac | f].
    + apply way_dispatched. exact Hpre.
    + apply way_translator_stops. exact Hpre.
Qed.

(** Every run of the statements after the test of the socket goes one of
    the ways. *)

Lemma validated_ways (buf : list Z) (len : Z) (s : socket) :
  way cfg buf len s (tcp_send_validated cfg buf len (Some s) []).
Proof.
  destruct (established s) eqn:Hest.
  - rewrite (path_established buf len s [] Hest).
    destruct (s_conn s) as [c |].
    + destruct (serves_family cfg c);
        [apply route_ways | apply way_family].
    + destruct (ipv6_only cfg);
        [apply route_ways | apply way_no_connection].
  - rewrite (path_unconnected buf len s [] Hest). apply way_unconnected.
Qed.

(** The routing for a connection that is there. *)

Lemma route_unusable (buf : list Z) (len : Z) (s : socket) (c : tcp_conn_s)
    (tr : list event) :
  usable_device cfg (netdev_findby_ipv6addr (lookup_args cfg c)) = false ->
  tcp_send_route cfg (Some c) buf len (Some s) tr =
  Run (Returned (- ENETUNREACH)) (Some s)
      (tr ++ [EvFindDev (lookup_args cfg c)
                        (netdev_findby_ipv6addr (lookup_args cfg c));
              not_routable_warning cfg]).
Proof.
  intros Hbad. rewrite route_equation.
  cbn [find_answer find_event]. unfold usable_device in Hbad.
  destruct (netdev_findby_ipv6addr (lookup_args cfg c)) as [d |];
    [rewrite Hbad | ]; reflexivity.
Qed.

Lemma route_unreachable (buf : list Z) (len : Z) (s : socket)
    (c : tcp_conn_s) (d : net_driver_s) (tr : list event) :
  netdev_findby_ipv6addr (lookup_args cfg c) = Some d ->
  link_accepted cfg d = true ->
  neighbor_known cfg c = false ->
  tcp_send_route cfg (Some c) buf len (Some s) tr =
  Run (Returned (- ENETUNREACH)) (Some s)
      (tr ++ [EvFindDev (lookup_args cfg c) (Some d);
              EvNeighbor (raddr c) (icmpv6_neighbor (raddr c));
              EvLog LogError "ERROR: Not reachable"]).
Proof.
  unfold neighbor_known. intros Hfind Hlink Hneigh.
  apply orb_false_elim in Hneigh as [Hcfg Hr].
  apply negb_false_iff in Hcfg. apply Z.leb_gt in Hr. apply Z.ltb_lt in Hr.
  rewrite route_equation.
  cbn [find_answer find_event neighbor_result neighbor_event].
  rewrite Hfind, Hlink, Hcfg, Hr. reflexivity.
Qed.

Lemma route_dispatches (buf : list Z) (len : Z) (s : socket)
    (c : tcp_conn_s) (d : net_driver_s) (tr : list event) :
  netdev_findby_ipv6addr (lookup_args cfg c) = Some d ->
  link_accepted cfg d = true ->
  neighbor_known cfg c = true ->
  tcp_send_route cfg (Some c) buf len (Some s) tr =
  Run (Returned (dispatch_result cfg c d buf len s))
      (Some (in_state _SF_IDLE s))
      (tr ++ routing_events cfg c d ++ dispatch_events cfg c d buf len s).
Proof.
  unfold neighbor_known, routing_events. intros Hfind Hlink Hneigh.
  rewrite route_equation.
  cbn [find_answer find_event neighbor_result neighbor_event].
  rewrite Hfind, Hlink.
  destruct (CONFIG_NET_ICMPv6_NEIGHBOR cfg).
  - simpl in Hneigh. apply Z.leb_le in Hneigh. apply Z.ltb_ge in Hneigh.
    rewrite Hneigh, dispatch_run, <- app_assoc. reflexivity.
  - rewrite dispatch_run, <- app_assoc. reflexivity.
Qed.

End SocketPaths.

Section SocketCases.

Context {E : Collaborators}.
Variable cfg : config.

(** The whole function on a socket that is not NULL: the test of the
    socket holds whatever the socket, unless an assertion stops the call
    before. *)

Lemma rejects_nonnull (buf : list Z) (len : Z) (s : socket)
    (tr : list event) :
  psock_6lowpan_tcp_send cfg buf len (Some s) tr =
  if CONFIG_DEBUG_ASSERTIONS cfg
     && (negb (0 <? s_crefs s) || negb (sock_type_eqb (s_type s) SOCK_STREAM))
  then Run (Stopped AssertionFailed) (Some s) tr
  else Run (Returned (- EBADF)) (Some s)
           (tr ++ [EvLog LogError "ERROR: Invalid socket"]).
Proof.
  unfold psock_6lowpan_tcp_send. unfold_stmt.
  destruct (CONFIG_DEBUG_ASSERTIONS cfg); step; [ | reflexivity].
  destruct (0 <? s_crefs s); step; [ | reflexivity].
  destruct (sock_type_eqb (s_type s) SOCK_STREAM); step; reflexivity.
Qed.

Lemma rejects_nonnull_quiet (buf : list Z) (len : Z) (s : socket) :
  final (psock_6lowpan_tcp_send cfg buf len (Some s) []) = Some s /\
  existsb is_lookup (trace (psock_6lowpan_tcp_send cfg buf len (Some s) []))
    = false /\
  quiet (trace (psock_6lowpan_tcp_send cfg buf len (Some s) [])).
Proof.
  rewrite rejects_nonnull.
  destruct (CONFIG_DEBUG_ASSERTIONS cfg
            && (negb (0 <? s_crefs s)
                || negb (sock_type_eqb (s_type s) SOCK_STREAM)));
    repeat split; reflexivity.
Qed.

End SocketCases.

(** Every way leaves the socket as it was, with no flag written and no
    dispatcher called, or has gone through the routing into the last
    part, where it is stopped after the write of the sending state or
    ends with the answer of the dispatcher. *)

Lemma way_shape {E : Collaborators} {cfg : config} {buf : list Z}
    {len : Z} {s : socket} {r : run (option socket) Z} :
  way cfg buf len s r ->
  (final r = Some s /\ quiet (trace r)) \/
  (exists pre f,
      routing_prefix cfg pre /\
      r = Run (Stopped f) (Some (in_state _SF_SEND s))
              (pre ++ [EvSetFlags (to_uint8 (_SS_SETSTATE (s_flags s) _SF_SEND))]))
  \/
  (exists pre d mac,
      routing_prefix cfg pre /\
      r = Run (Returned (send_answer cfg mac d buf len s))
              (Some (in_state _SF_IDLE s))
              (pre ++ send_events cfg mac d buf len s)).
Proof.
  intros Hway.
  destruct Hway as [ | | | e f He | e He | e1 e2 f H1 H2 | e1 e2 H1 H2
                   | pre f Hpre | pre d mac Hpre];
    try (left; split; [reflexivity | split; reflexivity]).
  - left. destruct (find_is_quiet e He) as (Hf & Hd & _).
    split; [reflexivity | split; simpl; rewrite ?Hf, ?Hd; reflexivity].
  - left. destruct (find_is_quiet e He) as (Hf & Hd & _).
    split; [reflexivity | ].
    unfold not_routable_warning.
    split; simpl; rewrite ?Hf, ?Hd; reflexivity.
  - left. destruct (find_is_quiet e1 H1) as (Hf1 & Hd1 & _).
    destruct (neighbor_is_quiet e2 H2) as (Hf2 & Hd2 & _).
    split; [reflexivity | ].
    split; simpl; rewrite ?Hf1, ?Hd1, ?Hf2, ?Hd2; reflexivity.
  - left. destruct (find_is_quiet e1 H1) as (Hf1 & Hd1 & _).
    destruct (neighbor_is_quiet e2 H2) as (Hf2 & Hd2 & _).
    split; [reflexivity | ].
    split; simpl; rewrite ?Hf1, ?Hd1, ?Hf2, ?Hd2; reflexivity.
  - right. left. exists pre, f. split; [exact Hpre | reflexivity].
  - right. right. exists pre, d, mac. split; [exact Hpre | reflexivity].
Qed.

(** ** Claims about psock_6lowpan_tcp_send *)

(** C1.  The function does not return -EBADF exactly for the sockets
    that are NULL or unreferenced.  A socket that is not NULL, has one
    reference, is a stream socket and is connected is rejected with
    -EBADF in every build; and on NULL, in a build without debug
    assertions, the function does not return at all: the test of the
    socket reads the reference count through the NULL pointer. *)
Theorem valid_socket_rejected {E : Collaborators} (cfg : config)
    (buf : list Z) (len : Z) :
  0 < s_crefs Sample.connected /\
  s_type Sample.connected = SOCK_STREAM /\
  _SS_ISCONNECTED (s_flags Sample.connected) = true /\
  psock_6lowpan_tcp_send cfg buf len (Some Sample.connected) [] =
    Run (Returned (- EBADF)) (Some Sample.connected)
        [EvLog LogError "ERROR: Invalid socket"] /\
  psock_6lowpan_tcp_send Sample.release_build buf len None [] =
    Run (Stopped NullDereference) None [].
Proof.
  repeat split.
  rewrite rejects_nonnull. simpl. rewrite andb_false_r. reflexivity.
Qed.

(** C2, as stated, fails in a build with debug assertions: a datagram
    socket with one reference is not rejected with -EBADF, the assertion
    on the type of the socket stops the call. *)
Lemma datagram_socket_stops_debug_build :
  0 < s_crefs Sample.datagram /\
  ~ rejected_as_invalid Sample.datagram
      (psock_6lowpan_tcp_send (E := Sample.collaborators None 0 0)
         Sample.debug_build [] 0 (Some Sample.datagram) []).
Proof.
  split; [reflexivity | ].
  intros [Hout _]. vm_compute in Hout. discriminate.
Qed.

(** C2, amended.  For every socket that is not NULL and has a positive
    reference count, the call looks up no device, calls no dispatcher,
    writes nothing to the flags and leaves the socket as it was; it
    returns -EBADF, except that in a build with debug assertions the
    assertion on the type stops the call when the socket is not a stream
    socket. *)
Theorem referenced_socket_rejected {E : Collaborators} (cfg : config)
    (buf : list Z) (len : Z) (s : socket) :
  0 < s_crefs s ->
  untouched s (psock_6lowpan_tcp_send cfg buf len (Some s) []) /\
  outcome (psock_6lowpan_tcp_send cfg buf len (Some s) []) =
    if CONFIG_DEBUG_ASSERTIONS cfg
       && negb (sock_type_eqb (s_type s) SOCK_STREAM)
    then Stopped AssertionFailed
    else Returned (- EBADF).
Proof.
  intros Hrefs. apply Z.ltb_lt in Hrefs.
  split.
  - destruct (rejects_nonnull_quiet cfg buf len s) as (Hf & Hl & Hw & Hd).
    repeat split; assumption.
  - rewrite rejects_nonnull, Hrefs. simpl.
    destruct (CONFIG_DEBUG_ASSERTIONS cfg
              && negb (sock_type_eqb (s_type s) SOCK_STREAM)); reflexivity.
Qed.

Lemma referenced_socket_rejected_witness :
  0 < s_crefs Sample.connected /\
  rejected_as_invalid Sample.connected
    (psock_6lowpan_tcp_send (E := Sample.collaborators None 0 0)
       Sample.debug_build [] 0 (Some Sample.connected) []).
Proof.
  split.
  - reflexivity.
  - destruct (referenced_socket_rejected
                (E := Sample.collaborators None 0 0)
                Sample.debug_build [] 0 Sample.connected eq_refl)
      as [Huntouched Hout].
    split; [exact Hout | exact Huntouched].
Defined.

(** C4.  A stream socket with one reference whose connection is not
    established is not answered with -ENOTCONN: the call returns -EBADF,
    a different value, in every build.  The statements after the test of
    the socket, taken alone, do answer -ENOTCONN with no lookup and no
    dispatch; the test before them never lets a socket through. *)
Theorem unconnected_socket_rejected_as_invalid {E : Collaborators}
    (cfg : config) (buf : list Z) (len : Z) :
  _SS_ISCONNECTED (s_flags Sample.unconnected) = false /\
  psock_6lowpan_tcp_send cfg buf len (Some Sample.unconnected) [] =
    Run (Returned (- EBADF)) (Some Sample.unconnected)
        [EvLog LogError "ERROR: Invalid socket"] /\
  - EBADF <> - ENOTCONN /\
  tcp_send_validated cfg buf len (Some Sample.unconnected) [] =
    Run (Returned (- ENOTCONN)) (Some Sample.unconnected)
        [EvLog LogError "ERROR: Not connected"].
Proof.
  repeat split.
  - rewrite rejects_nonnull. simpl. rewrite andb_false_r. reflexivity.
  - discriminate.
Qed.



(** C7.  When the call of the dispatcher is among the events of a send,
    the send returns, and what it returns is the value the dispatcher
    answered, negative or not. *)
Theorem dispatcher_result_verbatim {E : Collaborators} (cfg : config)
    (buf : list Z) (len : Z) (s : socket) (r : run (option socket) Z)
    (dev : net_driver_s) (hdr b : list Z) (l : Z) (mac : rimeaddr_s)
    (timeout v : Z) :
  send_run cfg buf len s r ->
  In (EvSend dev hdr b l mac timeout v) (trace r) ->
  outcome r = Returned v /\ v = sixlowpan_send dev hdr b l mac timeout.
Proof.
  intros [-> | ->] Hin.
  - exfalso.
    destruct (rejects_nonnull_quiet cfg buf len s) as (_ & _ & Hq).
    exact (quiet_no_dispatch Hq Hin eq_refl).
  - destruct (way_shape (validated_ways cfg buf len s))
      as [[Hf Hq] | [(pre & f & Hpre & Heq)
                    | (pre & d & mac0 & Hpre & Heq)]].
    + exfalso. exact (quiet_no_dispatch Hq Hin eq_refl).
    + exfalso. rewrite Heq in Hin. cbn [trace] in Hin.
      apply in_app_or in Hin as [Hin | [Hin | []]].
      * exact (quiet_no_dispatch (prefix_quiet Hpre) Hin eq_refl).
      * discriminate Hin.
    + rewrite Heq in Hin |- *. cbn [trace outcome] in Hin |- *.
      destruct (events_verbatim cfg mac0 d buf len s pre dev hdr b l mac
                  timeout v (prefix_quiet Hpre) Hin) as [Hres Hv].
      split; [rewrite Hres; reflexivity | exact Hv].
Qed.

(** A dispatcher that fails with -5: the send returns -5. *)
Lemma dispatcher_result_verbatim_witness :
  In (EvSend (Sample.radio 0) [] [104; 105] 2 [171; 205] 0 (-5))
     (trace (tcp_send_validated
               (E := Sample.collaborators (Some (Sample.radio 0)) 0 (-5))
               Sample.release_build [104; 105] 2 (Some Sample.connected) []))
  /\
  outcome (tcp_send_validated
             (E := Sample.collaborators (Some (Sample.radio 0)) 0 (-5))
             Sample.release_build [104; 105] 2 (Some Sample.connected) [])
  = Returned (-5).
Proof.
  assert (Hin : In (EvSend (Sample.radio 0) [] [104; 105] 2 [171; 205] 0 (-5))
     (trace (tcp_send_validated
               (E := Sample.collaborators (Some (Sample.radio 0)) 0 (-5))
               Sample.release_build [104; 105] 2 (Some Sample.connected) []))).
  { vm_compute. right. right. right. left. reflexivity. }
  split; [exact Hin | ].
  exact (proj1 (dispatcher_result_verbatim
                  (E := Sample.collaborators (Some (Sample.radio 0)) 0 (-5))
                  Sample.release_build [104; 105] 2 Sample.connected _
                  (Sample.radio 0) [] [104; 105] 2 [171; 205] 0 (-5)
                  (or_intror eq_refl) Hin)).
Defined.

(** A dispatcher that accepts 40 bytes: the events of the send, in
    order, and the value returned. *)
Example connected_send_accepted :
  tcp_send_validated
    (E := Sample.collaborators (Some (Sample.radio 0)) 0 40)
    Sample.release_build (repeat 0 40) 40 (Some Sample.connected) [] =
  Run (Returned 40) (Some Sample.connected)
      [EvFindDev [laddr Sample.peer; raddr Sample.peer] (Some (Sample.radio 0));
       EvNeighbor (raddr Sample.peer) 0;
       EvSetFlags 67;
       EvSend (Sample.radio 0) [] (repeat 0 40) 40 [171; 205] 0 40;
       EvSetFlags 64].
Proof. vm_compute. reflexivity. Qed.

(** ** Claim about kmm_heapmember *)

(** C10.  For every address, kmm_heapmember returns what mm_heapmember
    answers for the kernel heap and that address, and it changes neither
    the heaps nor the events; the answer is the same whatever the user
    heap and the events so far. *)
Theorem kmm_heapmember_delegates (mm_heap_s : Type)
    (mm_heapmember : mm_heap_s -> Z -> bool)
    (mem : Z) (g : heaps mm_heap_s) (tr : list event) :
  kmm_heapmember mm_heapmember mem g tr =
    Run (Returned (mm_heapmember (g_kmmheap g) mem)) g tr /\
  forall (user : mm_heap_s) (tr' : list event),
    outcome (kmm_heapmember mm_heapmember mem
               (Heaps (g_kmmheap g) user) tr') =
    outcome (kmm_heapmember mm_heapmember mem g tr).
Proof.
  split; [reflexivity | ].
  intros user tr'. reflexivity.
Qed.

(** * Further properties *)

(** ** sixlowpan_tcp_send on every device *)

(** X1.  On a NULL device the call never returns: with debug assertions
    the assertion at the entry stops it, and without them the test of
    line 230 is passed over and the assignment of line 278 writes
    through the NULL pointer.  Nothing is dispatched or logged. *)
Theorem flush_null_device_stops {E : Collaborators} (cfg : config) :
  sixlowpan_tcp_send cfg None [] =
  Run (Stopped (if CONFIG_DEBUG_ASSERTIONS cfg
                then AssertionFailed else NullDereference))
      None [].
Proof.
  unfold sixlowpan_tcp_send. unfold_stmt.
  destruct (CONFIG_DEBUG_ASSERTIONS cfg); reflexivity.
Qed.

Lemma dispatch_event_iff {E : Collaborators} (cfg : config)
    (dev : net_driver_s) :
  existsb is_dispatch (trace (sixlowpan_tcp_send cfg (Some dev) [])) = true
  <-> declares_tcp dev /\ 0 < d_len dev <= hdrlen.
Proof.
  destruct (Z_lt_le_dec 0 (d_len dev)) as [Hpos | Hnone].
  - destruct (declares_tcp_dec dev) as [Htcp | Hother].
    + destruct (Z_lt_le_dec hdrlen (d_len dev)) as [Hlong | Hshort].
      * rewrite flush_too_long by assumption. simpl.
        split; [discriminate | intros [_ [_ Hle]]; lia].
      * rewrite flush_dispatch by (try assumption; split; assumption).
        simpl. split; [intros _; repeat split; assumption | reflexivity].
    + rewrite flush_not_tcp by assumption. simpl.
      split; [discriminate | intros [Htcp _]; contradiction].
  - rewrite flush_nothing_pending by assumption.
    destruct (CONFIG_DEBUG_ASSERTIONS cfg); simpl;
      (split; [discriminate | intros [_ [Hpos _]]; lia]).
Qed.

(** X2.  The dispatcher is called exactly for the devices whose buffer
    declares TCP and whose valid length is positive and at most the
    combined length of the two headers. *)
Theorem flush_dispatches_iff {E : Collaborators} (cfg : config)
    (dev : net_driver_s) :
  existsb is_dispatch (trace (sixlowpan_tcp_send cfg (Some dev) [])) = true
  <-> declares_tcp dev /\ 0 < d_len dev <= hdrlen.
Proof. apply dispatch_event_iff. Qed.

(** X3.  A call on a device with a positive valid length leaves exactly
    one event: either the call of the dispatcher or one warning, never
    both and never more. *)
Theorem flush_one_event {E : Collaborators} (cfg : config)
    (dev : net_driver_s) :
  0 < d_len dev ->
  exists e,
    trace (sixlowpan_tcp_send cfg (Some dev) []) = [e] /\
    xorb (is_dispatch e) (is_warning e) = true.
Proof.
  intros Hpos.
  destruct (declares_tcp_dec dev) as [Htcp | Hother].
  - destruct (Z_lt_le_dec hdrlen (d_len dev)) as [Hlong | Hshort].
    + rewrite flush_too_long by assumption.
      eexists. split; reflexivity.
    + rewrite flush_dispatch by (try assumption; split; assumption).
      eexists. split; reflexivity.
  - rewrite flush_not_tcp by assumption.
    eexists. split; reflexivity.
Qed.

Lemma flush_one_event_witness :
  0 < d_len (Sample.udp_radio 48) /\
  exists e,
    trace (sixlowpan_tcp_send (E := Sample.collaborators None 0 0)
             Sample.release_build (Some (Sample.udp_radio 48)) []) = [e] /\
    xorb (is_dispatch e) (is_warning e) = true.
Proof.
  split.
  - reflexivity.
  - exact (flush_one_event (E := Sample.collaborators None 0 0)
             Sample.release_build (Sample.udp_radio 48) eq_refl).
Defined.

(** X4.  Whenever the dispatcher is called, it is called on the device
    itself, with the header at the start of the buffer and the payload
    right after the two headers, and the payload length is never the
    length of data that lies in the buffer: it is zero, when the valid
    length is exactly the two headers, or else the valid length is short
    of the headers and the difference has wrapped around in size_t. *)
Theorem flush_payload_length {E : Collaborators} (cfg : config)
    (dev d : net_driver_s) (ipv6hdr payload len : Z) (mac : rimeaddr_s)
    (answer : Z) :
  In (EvQueueFrames d ipv6hdr payload len mac answer)
     (trace (sixlowpan_tcp_send cfg (Some dev) [])) ->
  d = dev /\ ipv6hdr = 0 /\ payload = hdrlen /\
  ((d_len dev = hdrlen /\ len = 0) \/
   (0 < d_len dev < hdrlen /\
    len = 2 ^ size_t_bits cfg - (hdrlen - d_len dev))).
Proof.
  intros Hin.
  assert (Hdisp : existsb is_dispatch
                    (trace (sixlowpan_tcp_send cfg (Some dev) [])) = true).
  { apply existsb_exists. eexists. split; [exact Hin | reflexivity]. }
  apply dispatch_event_iff in Hdisp as [Htcp [Hpos Hle]].
  rewrite flush_dispatch in Hin by (try assumption; split; assumption).
  cbn [trace app] in Hin. destruct Hin as [Hev | []].
  injection Hev as <- <- <- <- _ _.
  repeat split.
  unfold flush_payload_len, to_size_t, size_t_bits.
  unfold hdrlen, IPv6_HDRLEN, TCP_HDRLEN in *.
  destruct (Z.eq_dec (d_len dev) (40 + 20)) as [Heq | Hne].
  - left. split; [exact Heq | ].
    rewrite Heq, Z.sub_diag. apply Z.mod_0_l.
    destruct (CONFIG_SMALL_MEMORY cfg); discriminate.
  - right. split; [lia | ].
    destruct (CONFIG_SMALL_MEMORY cfg).
    + change (2 ^ 16) with 65536.
      rewrite <- (Z.mod_add _ 1 65536) by discriminate.
      rewrite Z.mod_small by lia. lia.
    + change (2 ^ 32) with 4294967296.
      rewrite <- (Z.mod_add _ 1 4294967296) by discriminate.
      rewrite Z.mod_small by lia. lia.
Qed.

Lemma flush_payload_length_witness :
  In (EvQueueFrames (Sample.radio 59) 0 60 4294967295 [171; 205] 0)
     (trace (sixlowpan_tcp_send (E := Sample.collaborators None 0 0)
               Sample.release_build (Some (Sample.radio 59)) [])) /\
  4294967295 = 2 ^ size_t_bits Sample.release_build - (hdrlen - 59).
Proof.
  assert (Hin : In (EvQueueFrames (Sample.radio 59) 0 60 4294967295
                                  [171; 205] 0)
     (trace (sixlowpan_tcp_send (E := Sample.collaborators None 0 0)
               Sample.release_build (Some (Sample.radio 59)) []))).
  { left. reflexivity. }
  split; [exact Hin | ].
  destruct (flush_payload_length (E := Sample.collaborators None 0 0)
              Sample.release_build (Sample.radio 59) _ _ _ _ _ _ Hin)
    as (_ & _ & _ & [[Habs _] | [_ Hlen]]).
  - discriminate Habs.
  - exact Hlen.
Defined.

(** X5.  A call that returns without calling the dispatcher has changed
    nothing of the device but its valid length: the buffer and the link
    layer are as they were. *)
Theorem flush_skip_keeps_buffer {E : Collaborators} (cfg : config)
    (dev : net_driver_s) :
  outcome (sixlowpan_tcp_send cfg (Some dev) []) = Returned tt ->
  existsb is_dispatch (trace (sixlowpan_tcp_send cfg (Some dev) [])) = false ->
  final (sixlowpan_tcp_send cfg (Some dev) []) = Some (set_d_len 0 dev).
Proof.
  intros Hret Hnone.
  destruct (Z_lt_le_dec 0 (d_len dev)) as [Hpos | Hzero].
  - destruct (declares_tcp_dec dev) as [Htcp | Hother].
    + destruct (Z_lt_le_dec hdrlen (d_len dev)) as [Hlong | Hshort].
      * rewrite flush_too_long by assumption. reflexivity.
      * exfalso.
        assert (Hyes : existsb is_dispatch
                  (trace (sixlowpan_tcp_send cfg (Some dev) [])) = true).
        { apply dispatch_event_iff. repeat split; assumption. }
        congruence.
    + rewrite flush_not_tcp by assumption. reflexivity.
  - rewrite flush_nothing_pending in Hret |- * by assumption.
    destruct (CONFIG_DEBUG_ASSERTIONS cfg); [discriminate | reflexivity].
Qed.

Lemma flush_skip_keeps_buffer_witness :
  outcome (sixlowpan_tcp_send (E := Sample.collaborators None 0 0)
             Sample.debug_build (Some (Sample.radio 62)) []) = Returned tt /\
  existsb is_dispatch
    (trace (sixlowpan_tcp_send (E := Sample.collaborators None 0 0)
              Sample.debug_build (Some (Sample.radio 62)) [])) = false /\
  final (sixlowpan_tcp_send (E := Sample.collaborators None 0 0)
           Sample.debug_build (Some (Sample.radio 62)) [])
  = Some (Sample.radio 0).
Proof.
  split; [reflexivity | split; [reflexivity | ]].
  exact (flush_skip_keeps_buffer (E := Sample.collaborators None 0 0)
           Sample.debug_build (Sample.radio 62) eq_refl eq_refl).
Defined.

(** X6.  A second call right after a first one adds nothing: the device
    and the events are the ones the first call left.  The pair returns in
    a build without debug assertions, and in a build with them it never
    returns, since the first call, when it returns, leaves a valid length
    of zero, which the assertion at the entry of the second refuses. *)
Theorem flush_twice_adds_nothing {E : Collaborators} (cfg : config)
    (dev : net_driver_s) :
  final (flush_twice cfg (Some dev) []) =
    final (sixlowpan_tcp_send cfg (Some dev) []) /\
  trace (flush_twice cfg (Some dev) []) =
    trace (sixlowpan_tcp_send cfg (Some dev) []) /\
  outcome (flush_twice cfg (Some dev) []) =
    if CONFIG_DEBUG_ASSERTIONS cfg
    then Stopped AssertionFailed else Returned tt.
Proof.
  assert (Hshape : exists dev' tr,
             d_len dev' = 0 /\
             (sixlowpan_tcp_send cfg (Some dev) [] =
                Run (Returned tt) (Some dev') tr \/
              (CONFIG_DEBUG_ASSERTIONS cfg = true /\
               sixlowpan_tcp_send cfg (Some dev) [] =
                 Run (Stopped AssertionFailed) (Some dev) []))).
  { destruct (Z_lt_le_dec 0 (d_len dev)) as [Hpos | Hzero].
    - destruct (declares_tcp_dec dev) as [Htcp | Hother].
      + destruct (Z_lt_le_dec hdrlen (d_len dev)) as [Hlong | Hshort].
        * rewrite flush_too_long by assumption.
          eexists. eexists. split; [ | left; reflexivity]. reflexivity.
        * rewrite flush_dispatch by (try assumption; split; assumption).
          eexists. eexists. split; [ | left; reflexivity]. reflexivity.
      + rewrite flush_not_tcp by assumption.
        eexists. eexists. split; [ | left; reflexivity]. reflexivity.
    - rewrite flush_nothing_pending by assumption.
      destruct (CONFIG_DEBUG_ASSERTIONS cfg).
      + exists (set_d_len 0 dev), []. split; [reflexivity | ].
        right. split; reflexivity.
      + eexists. eexists. split; [ | left; reflexivity]. reflexivity. }
  destruct Hshape as (dev' & tr & Hlen & [Hrun | [Hdbg Hrun]]).
  - unfold flush_twice, bind. rewrite Hrun. cbn [outcome final trace].
    rewrite flush_nothing_pending by lia.
    destruct (CONFIG_DEBUG_ASSERTIONS cfg); cbn [outcome final trace].
    + repeat split.
    + destruct dev' as [ll len buf]. simpl in Hlen. subst len.
      repeat split.
  - unfold flush_twice, bind. rewrite Hrun, Hdbg. repeat split.
Qed.

(** ** psock_6lowpan_tcp_send on every socket *)

Lemma rejects_null {E : Collaborators} (cfg : config) (buf : list Z)
    (len : Z) (tr : list event) :
  psock_6lowpan_tcp_send cfg buf len None tr =
  Run (Stopped (if CONFIG_DEBUG_ASSERTIONS cfg
                then AssertionFailed else NullDereference))
      None tr.
Proof.
  unfold psock_6lowpan_tcp_send, DEBUGASSERT.
  destruct (CONFIG_DEBUG_ASSERTIONS cfg); reflexivity.
Qed.

(** X7.  Whatever the socket pointer, NULL or not, and whatever the
    build, the whole function never sends: it looks up no device, calls
    no dispatcher, writes no flag, leaves the socket as it was, and
    either returns -EBADF or does not return. *)
Theorem whole_send_never_succeeds {E : Collaborators} (cfg : config)
    (buf : list Z) (len : Z) (psock : option socket) :
  final (psock_6lowpan_tcp_send cfg buf len psock []) = psock /\
  existsb is_lookup (trace (psock_6lowpan_tcp_send cfg buf len psock []))
    = false /\
  existsb is_dispatch (trace (psock_6lowpan_tcp_send cfg buf len psock []))
    = false /\
  existsb is_flag_write (trace (psock_6lowpan_tcp_send cfg buf len psock []))
    = false /\
  (outcome (psock_6lowpan_tcp_send cfg buf len psock []) = Returned (- EBADF)
   \/ exists f,
        outcome (psock_6lowpan_tcp_send cfg buf len psock []) = Stopped f).
Proof.
  destruct psock as [s |].
  - rewrite rejects_nonnull.
    destruct (CONFIG_DEBUG_ASSERTIONS cfg
              && (negb (0 <? s_crefs s)
                  || negb (sock_type_eqb (s_type s) SOCK_STREAM)));
      repeat split; try reflexivity.
    + right. eexists. reflexivity.
    + left. reflexivity.
  - rewrite rejects_null. cbn [final trace outcome existsb].
    repeat split. right. eexists. reflexivity.
Qed.

(** X8.  On a NULL socket the whole function never returns: with debug
    assertions the first assertion stops it, and without them the test of
    line 97 reads the reference count through the NULL pointer. *)
Theorem null_socket_stops {E : Collaborators} (cfg : config)
    (buf : list Z) (len : Z) :
  psock_6lowpan_tcp_send cfg buf len None [] =
  Run (Stopped (if CONFIG_DEBUG_ASSERTIONS cfg
                then AssertionFailed else NullDereference))
      None [].
Proof. apply rejects_null. Qed.

(** ** The statements after the test of the socket, way by way

    The properties below are about lines 103 to 196 run on their own,
    from a socket that is not NULL. *)

(** X9.  A socket that is not a stream socket, or whose connected flag
    is not set, is answered with -ENOTCONN; one error is logged, no
    device is looked up, nothing is dispatched and the socket is as it
    was. *)
Theorem unestablished_not_connected {E : Collaborators} (cfg : config)
    (buf : list Z) (len : Z) (s : socket) :
  established s = false ->
  tcp_send_validated cfg buf len (Some s) [] =
  Run (Returned (- ENOTCONN)) (Some s)
      [EvLog LogError "ERROR: Not connected"].
Proof. intros Hest. apply (path_unconnected cfg buf len s [] Hest). Qed.

Lemma unestablished_not_connected_witness :
  established Sample.datagram = false /\
  tcp_send_validated (E := Sample.collaborators (Some (Sample.radio 0)) 0 40)
    Sample.release_build [104; 105] 2 (Some Sample.datagram) [] =
  Run (Returned (-107)) (Some Sample.datagram)
      [EvLog LogError "ERROR: Not connected"].
Proof.
  split.
  - reflexivity.
  - exact (unestablished_not_connected
             (E := Sample.collaborators (Some (Sample.radio 0)) 0 40)
             Sample.release_build [104; 105] 2 Sample.datagram eq_refl).
Defined.

(** X10.  A connected stream socket whose connection pointer is NULL.
    With debug assertions the assertion on the pointer stops the
    statements, and without them but with IPv4 the read of the domain
    through the pointer does, in both cases before any event.  In a
    build with neither, nothing reads through the pointer: the
    statements go on to the device lookup, which is handed an address
    inside the NULL connection and is the first event. *)
Theorem orphan_socket_builds {E : Collaborators} (cfg : config)
    (buf : list Z) (len : Z) (s : socket) :
  established s = true ->
  s_conn s = None ->
  if ipv6_only cfg
  then exists rest,
         trace (tcp_send_validated cfg buf len (Some s) []) =
         EvFindDevNull netdev_findby_ipv6addr_null :: rest
  else tcp_send_validated cfg buf len (Some s) [] =
       Run (Stopped (if CONFIG_DEBUG_ASSERTIONS cfg
                     then AssertionFailed else NullDereference))
           (Some s) [].
Proof.
  intros Hest Hconn.
  rewrite (path_established cfg buf len s [] Hest), Hconn.
  destruct (ipv6_only cfg); [ | reflexivity].
  rewrite route_equation. cbn [find_answer find_event neighbor_result
                               neighbor_event app].
  destruct netdev_findby_ipv6addr_null as [[d |] | f];
    try (eexists; reflexivity).
  destruct (link_accepted cfg d); [ | eexists; reflexivity].
  destruct (CONFIG_NET_ICMPv6_NEIGHBOR cfg).
  - destruct icmpv6_neighbor_null as [r | f]; [ | eexists; reflexivity].
    destruct (r <? 0); [eexists; reflexivity | ].
    rewrite dispatch_shape.
    destruct (translator_answer None); eexists; reflexivity.
  - rewrite dispatch_shape.
    destruct (translator_answer None); eexists; reflexivity.
Qed.

(** Without IPv4 and assertions, a registry that answers with a device
    and a translator that stops on the address: the statements stop
    after the write of the sending state. *)
Lemma orphan_socket_builds_witness :
  established Sample.orphan = true /\
  s_conn Sample.orphan = None /\
  tcp_send_validated
    (E := Sample.collaborators (Some (Sample.radio 0)) 0 40)
    Sample.ipv6_build [104; 105] 2 (Some Sample.orphan) [] =
  Run (Stopped NullDereference)
      (Some (Socket 1 SOCK_STREAM (_SF_CONNECTED + _SF_SEND) 0 None))
      [EvFindDevNull (Returned (Some (Sample.radio 0)));
       EvNeighborNull (Returned 0);
       EvSetFlags 67] /\
  exists rest,
    trace (tcp_send_validated
             (E := Sample.collaborators (Some (Sample.radio 0)) 0 40)
             Sample.ipv6_build [104; 105] 2 (Some Sample.orphan) []) =
    EvFindDevNull (Returned (Some (Sample.radio 0))) :: rest.
Proof.
  split; [reflexivity | split; [reflexivity | split; [reflexivity | ]]].
  exact (orphan_socket_builds
           (E := Sample.collaborators (Some (Sample.radio 0)) 0 40)
           Sample.ipv6_build [104; 105] 2 Sample.orphan eq_refl eq_refl).
Defined.

(** The same socket and build, with a registry that finds no device:
    the statements return. *)
Example orphan_socket_not_routable :
  tcp_send_validated (E := Sample.collaborators None 0 40)
    Sample.ipv6_build [104; 105] 2 (Some Sample.orphan) [] =
  Run (Returned (- ENETUNREACH)) (Some Sample.orphan)
      [EvFindDevNull (Returned None);
       EvLog LogWarning "WARNING: Not routable or not IEEE802.15.4 MAC"].
Proof. reflexivity. Qed.

(** X11.  Where IPv4 is configured too, an established socket whose
    connection is not in the IPv6 domain is answered with -EPROTOTYPE;
    one warning is logged, no device is looked up and nothing is
    dispatched. *)
Theorem wrong_family_rejected {E : Collaborators} (cfg : config)
    (buf : list Z) (len : Z) (s : socket) (c : tcp_conn_s) :
  established s = true ->
  s_conn s = Some c ->
  serves_family cfg c = false ->
  tcp_send_validated cfg buf len (Some s) [] =
  Run (Returned (- EPROTOTYPE)) (Some s)
      [EvLog LogWarning "WARNING: Not IPv6"].
Proof.
  intros Hest Hconn Hfam.
  rewrite (path_established cfg buf len s [] Hest), Hconn, Hfam.
  reflexivity.
Qed.

Lemma wrong_family_rejected_witness :
  established Sample.connected_v4 = true /\
  s_conn Sample.connected_v4 = Some Sample.peer_v4 /\
  serves_family Sample.release_build Sample.peer_v4 = false /\
  tcp_send_validated (E := Sample.collaborators (Some (Sample.radio 0)) 0 40)
    Sample.release_build [104; 105] 2 (Some Sample.connected_v4) [] =
  Run (Returned (-91)) (Some Sample.connected_v4)
      [EvLog LogWarning "WARNING: Not IPv6"].
Proof.
  split; [reflexivity | split; [reflexivity | split; [reflexivity | ]]].
  exact (wrong_family_rejected
           (E := Sample.collaborators (Some (Sample.radio 0)) 0 40)
           Sample.release_build [104; 105] 2 Sample.connected_v4
           Sample.peer_v4 eq_refl eq_refl eq_refl).
Defined.

(** X12.  When the device lookup finds no device, or, with several link
    layers configured, a device that is not an IEEE 802.15.4 one, an
    established IPv6 socket is answered with -ENETUNREACH after one
    warning; the neighbour table is not consulted, nothing is dispatched
    and the socket is as it was. *)
Theorem unusable_device_not_routable {E : Collaborators} (cfg : config)
    (buf : list Z) (len : Z) (s : socket) (c : tcp_conn_s) :
  established s = true ->
  s_conn s = Some c ->
  serves_family cfg c = true ->
  usable_device cfg (netdev_findby_ipv6addr (lookup_args cfg c)) = false ->
  tcp_send_validated cfg buf len (Some s) [] =
  Run (Returned (- ENETUNREACH)) (Some s)
      [EvFindDev (lookup_args cfg c)
                 (netdev_findby_ipv6addr (lookup_args cfg c));
       not_routable_warning cfg].
Proof.
  intros Hest Hconn Hfam Hbad.
  rewrite (path_established cfg buf len s [] Hest), Hconn, Hfam.
  apply (route_unusable cfg buf len s c [] Hbad).
Qed.

(** An Ethernet device is found, in a build with several link layers. *)
Lemma unusable_device_not_routable_witness :
  established Sample.connected = true /\
  s_conn Sample.connected = Some Sample.peer /\
  serves_family Sample.release_build Sample.peer = true /\
  usable_device Sample.release_build (Some Sample.ethernet) = false /\
  tcp_send_validated (E := Sample.collaborators (Some Sample.ethernet) 0 40)
    Sample.release_build [104; 105] 2 (Some Sample.connected) [] =
  Run (Returned (-101)) (Some Sample.connected)
      [EvFindDev [laddr Sample.peer; raddr Sample.peer] (Some Sample.ethernet);
       EvLog LogWarning "WARNING: Not routable or not IEEE802.15.4 MAC"].
Proof.
  repeat (split; [reflexivity | ]).
  exact (unusable_device_not_routable
           (E := Sample.collaborators (Some Sample.ethernet) 0 40)
           Sample.release_build [104; 105] 2 Sample.connected
           Sample.peer eq_refl eq_refl eq_refl eq_refl).
Defined.

(** X13.  Where the neighbour table is consulted and answers a negative
    value for the peer, an established IPv6 socket with a usable device
    is answered with -ENETUNREACH, the same value as for a missing
    device, after an error rather than a warning; nothing is dispatched
    and the flags are not written. *)
Theorem unknown_neighbor_not_routable {E : Collaborators} (cfg : config)
    (buf : list Z) (len : Z) (s : socket) (c : tcp_conn_s)
    (d : net_driver_s) :
  established s = true ->
  s_conn s = Some c ->
  serves_family cfg c = true ->
  netdev_findby_ipv6addr (lookup_args cfg c) = Some d ->
  link_accepted cfg d = true ->
  neighbor_known cfg c = false ->
  tcp_send_validated cfg buf len (Some s) [] =
  Run (Returned (- ENETUNREACH)) (Some s)
      [EvFindDev (lookup_args cfg c) (Some d);
       EvNeighbor (raddr c) (icmpv6_neighbor (raddr c));
       EvLog LogError "ERROR: Not reachable"].
Proof.
  intros Hest Hconn Hfam Hfind Hlink Hneigh.
  rewrite (path_established cfg buf len s [] Hest), Hconn, Hfam.
  apply (route_unreachable cfg buf len s c d [] Hfind Hlink Hneigh).
Qed.

Lemma unknown_neighbor_not_routable_witness :
  established Sample.connected = true /\
  s_conn Sample.connected = Some Sample.peer /\
  serves_family Sample.release_build Sample.peer = true /\
  link_accepted Sample.release_build (Sample.radio 0) = true /\
  neighbor_known (E := Sample.collaborators (Some (Sample.radio 0)) (-1) 40)
    Sample.release_build Sample.peer = false /\
  tcp_send_validated
    (E := Sample.collaborators (Some (Sample.radio 0)) (-1) 40)
    Sample.release_build [104; 105] 2 (Some Sample.connected) [] =
  Run (Returned (-101)) (Some Sample.connected)
      [EvFindDev [laddr Sample.peer; raddr Sample.peer] (Some (Sample.radio 0));
       EvNeighbor (raddr Sample.peer) (-1);
       EvLog LogError "ERROR: Not reachable"].
Proof.
  repeat (split; [reflexivity | ]).
  exact (unknown_neighbor_not_routable
           (E := Sample.collaborators (Some (Sample.radio 0)) (-1) 40)
           Sample.release_build [104; 105] 2 Sample.connected
           Sample.peer (Sample.radio 0)
           eq_refl eq_refl eq_refl eq_refl eq_refl eq_refl).
Defined.

(** X14.  For an established IPv6 socket with a usable device and a
    known neighbour, the statements return what the dispatcher answers.
    The events are the lookups of the routing, the write of the sending
    state, one call of the dispatcher, with the device that was found,
    the caller's buffer and length, the link address derived from the
    remote address and the send timeout of the socket (zero where socket
    options are not configured), an error message when the answer is
    negative, and the write of the idle state.  The socket ends as it
    was, but for the state bits of its flags, which are idle whatever
    they were before. *)
Theorem routed_send_dispatches {E : Collaborators} (cfg : config)
    (buf : list Z) (len : Z) (s : socket) (c : tcp_conn_s)
    (d : net_driver_s) :
  established s = true ->
  s_conn s = Some c ->
  serves_family cfg c = true ->
  netdev_findby_ipv6addr (lookup_args cfg c) = Some d ->
  link_accepted cfg d = true ->
  neighbor_known cfg c = true ->
  tcp_send_validated cfg buf len (Some s) [] =
  Run (Returned (sixlowpan_send d ipv6tcp_indeterminate buf len
                   (sixlowpan_rimefromip (raddr c))
                   (if CONFIG_NET_SOCKOPTS cfg then s_sndtimeo s else 0)))
      (Some (set_s_flags (_SS_SETSTATE (s_flags s) _SF_IDLE) s))
      (routing_events cfg c d ++ dispatch_events cfg c d buf len s).
Proof.
  intros Hest Hconn Hfam Hfind Hlink Hneigh.
  rewrite (path_established cfg buf len s [] Hest), Hconn, Hfam.
  exact (route_dispatches cfg buf len s c d [] Hfind Hlink Hneigh).
Qed.

(** A socket in the state of a pending receive, with a send timeout of
    30: the dispatcher gets the timeout, and the state ends idle. *)
Lemma routed_send_dispatches_witness :
  established Sample.receiving = true /\
  s_conn Sample.receiving = Some Sample.peer /\
  serves_family Sample.release_build Sample.peer = true /\
  link_accepted Sample.release_build (Sample.radio 0) = true /\
  neighbor_known (E := Sample.collaborators (Some (Sample.radio 0)) 0 2)
    Sample.release_build Sample.peer = true /\
  tcp_send_validated
    (E := Sample.collaborators (Some (Sample.radio 0)) 0 2)
    Sample.release_build [104; 105] 2 (Some Sample.receiving) [] =
  Run (Returned 2)
      (Some (Socket 1 SOCK_STREAM _SF_CONNECTED 30 (Some Sample.peer)))
      [EvFindDev [laddr Sample.peer; raddr Sample.peer] (Some (Sample.radio 0));
       EvNeighbor (raddr Sample.peer) 0;
       EvSetFlags 67;
       EvSend (Sample.radio 0) [] [104; 105] 2 [171; 205] 30 2;
       EvSetFlags 64].
Proof.
  repeat (split; [reflexivity | ]).
  exact (routed_send_dispatches
           (E := Sample.collaborators (Some (Sample.radio 0)) 0 2)
           Sample.release_build [104; 105] 2 Sample.receiving
           Sample.peer (Sample.radio 0)
           eq_refl eq_refl eq_refl eq_refl eq_refl eq_refl).
Defined.

(** ** The statements after the test of the socket, on every way *)

(** X15.  Whatever the way out, returning or not, the socket keeps its
    reference count, its type, its send timeout and its connection, and
    every flag bit other than the two bits of the state; in particular
    a send never changes whether the socket counts as connected. *)
Theorem send_keeps_socket {E : Collaborators} (cfg : config)
    (buf : list Z) (len : Z) (s : socket) :
  exists s',
    final (tcp_send_validated cfg buf len (Some s) []) = Some s' /\
    s_crefs s' = s_crefs s /\
    s_type s' = s_type s /\
    s_sndtimeo s' = s_sndtimeo s /\
    s_conn s' = s_conn s /\
    Z.land (s_flags s') _SF_OTHERS = Z.land (s_flags s) _SF_OTHERS /\
    _SS_ISCONNECTED (s_flags s') = _SS_ISCONNECTED (s_flags s).
Proof.
  assert (Hkept : forall s' : socket,
             s' = s \/ s' = in_state _SF_SEND s \/ s' = in_state _SF_IDLE s ->
             s_crefs s' = s_crefs s /\ s_type s' = s_type s /\
             s_sndtimeo s' = s_sndtimeo s /\ s_conn s' = s_conn s /\
             Z.land (s_flags s') _SF_OTHERS = Z.land (s_flags s) _SF_OTHERS /\
             _SS_ISCONNECTED (s_flags s') = _SS_ISCONNECTED (s_flags s)).
  { intros s' [-> | [-> | ->]].
    - repeat split.
    - unfold in_state.
      cbn [set_s_flags s_crefs s_type s_sndtimeo s_conn s_flags].
      repeat (split; [reflexivity | ]).
      split; [apply send_keeps_others | ].
      apply others_decide_connected, send_keeps_others.
    - unfold in_state.
      cbn [set_s_flags s_crefs s_type s_sndtimeo s_conn s_flags].
      repeat (split; [reflexivity | ]).
      split; [apply idle_keeps_others | ].
      apply others_decide_connected, idle_keeps_others. }
  destruct (way_shape (validated_ways cfg buf len s))
    as [[Hf _] | [(pre & f & _ & Heq) | (pre & d & mac & _ & Heq)]].
  - exists s. split; [exact Hf | apply Hkept; left; reflexivity].
  - rewrite Heq. eexists. split; [reflexivity | ].
    apply Hkept. right. left. reflexivity.
  - rewrite Heq. eexists. split; [reflexivity | ].
    apply Hkept. right. right. reflexivity.
Qed.

(** X16.  When the statements return without having called the
    dispatcher, the value returned is one of -ENOTCONN, -EPROTOTYPE and
    -ENETUNREACH, and the socket is as it was. *)
Theorem send_error_codes {E : Collaborators} (cfg : config)
    (buf : list Z) (len : Z) (s : socket) (v : Z) :
  outcome (tcp_send_validated cfg buf len (Some s) []) = Returned v ->
  existsb is_send (trace (tcp_send_validated cfg buf len (Some s) []))
    = false ->
  (v = - ENOTCONN \/ v = - EPROTOTYPE \/ v = - ENETUNREACH) /\
  final (tcp_send_validated cfg buf len (Some s) []) = Some s.
Proof.
  generalize (validated_ways cfg buf len s).
  generalize (tcp_send_validated cfg buf len (Some s) []).
  intros r Hway.
  destruct Hway as [ | | | e f He | e He | e1 e2 f H1 H2 | e1 e2 H1 H2
                   | pre f Hpre | pre d mac Hpre];
    cbn [outcome final trace]; intros Hret Hquiet;
    try discriminate Hret.
  - injection Hret as <-. split; [left | ]; reflexivity.
  - injection Hret as <-. split; [right; left | ]; reflexivity.
  - injection Hret as <-. split; [right; right | ]; reflexivity.
  - injection Hret as <-. split; [right; right | ]; reflexivity.
  - exfalso. rewrite existsb_app in Hquiet.
    apply orb_false_elim in Hquiet as [_ Hquiet].
    unfold send_events in Hquiet. simpl in Hquiet. discriminate Hquiet.
Qed.

(** No device is found: the value is -ENETUNREACH. *)
Lemma send_error_codes_witness :
  outcome (tcp_send_validated (E := Sample.collaborators None 0 40)
             Sample.release_build [104; 105] 2 (Some Sample.connected) [])
    = Returned (-101) /\
  existsb is_send
    (trace (tcp_send_validated (E := Sample.collaborators None 0 40)
              Sample.release_build [104; 105] 2 (Some Sample.connected) []))
    = false /\
  final (tcp_send_validated (E := Sample.collaborators None 0 40)
           Sample.release_build [104; 105] 2 (Some Sample.connected) [])
    = Some Sample.connected.
Proof.
  split; [reflexivity | split; [reflexivity | ]].
  exact (proj2 (send_error_codes (E := Sample.collaborators None 0 40)
                  Sample.release_build [104; 105] 2 Sample.connected (-101)
                  eq_refl eq_refl)).
Defined.

(** X17.  Nothing is tried twice: among the events of the statements
    there is at most one device lookup, at most one consultation of the
    neighbour table, which comes with a device lookup, and at most one
    call of the dispatcher.  A run that returns has written the flags
    exactly twice when it called the dispatcher and not at all
    otherwise; a run that stops has not called the dispatcher and has
    written the flags at most once. *)
Theorem send_single_attempt {E : Collaborators} (cfg : config)
    (buf : list Z) (len : Z) (s : socket) :
  (count is_find (trace (tcp_send_validated cfg buf len (Some s) [])) <= 1
   /\ count is_neighbor (trace (tcp_send_validated cfg buf len (Some s) []))
      <= count is_find (trace (tcp_send_validated cfg buf len (Some s) []))
   /\ count is_send (trace (tcp_send_validated cfg buf len (Some s) [])) <= 1
   /\ match outcome (tcp_send_validated cfg buf len (Some s) []) with
      | Returned _ =>
          count is_flag_write
            (trace (tcp_send_validated cfg buf len (Some s) []))
          = 2 * count is_send
                  (trace (tcp_send_validated cfg buf len (Some s) []))
      | Stopped _ =>
          count is_send (trace (tcp_send_validated cfg buf len (Some s) []))
          = 0
          /\ count is_flag_write
               (trace (tcp_send_validated cfg buf len (Some s) [])) <= 1
      end)%nat.
Proof.
  generalize (validated_ways cfg buf len s).
  generalize (tcp_send_validated cfg buf len (Some s) []).
  intros r Hway.
  destruct Hway as [ | | | e f He | e He | e1 e2 f H1 H2 | e1 e2 H1 H2
                   | pre f Hpre | pre d mac Hpre];
    cbn [outcome trace]; unfold count, not_routable_warning;
    try (cbn; repeat split; lia).
  - destruct (find_is_quiet e He) as (Hf & _ & Hs & Hn).
    simpl. rewrite He, Hf, Hs, Hn. simpl. repeat split; lia.
  - destruct (find_is_quiet e He) as (Hf & _ & Hs & Hn).
    simpl. rewrite He, Hf, Hs, Hn. simpl. repeat split; lia.
  - destruct (find_is_quiet e1 H1) as (Hf1 & _ & Hs1 & Hn1).
    destruct (neighbor_is_quiet e2 H2) as (Hf2 & _ & Hs2 & Hn2).
    simpl. rewrite H1, H2, Hf1, Hs1, Hn1, Hf2, Hs2, Hn2. simpl.
    repeat split; lia.
  - destruct (find_is_quiet e1 H1) as (Hf1 & _ & Hs1 & Hn1).
    destruct (neighbor_is_quiet e2 H2) as (Hf2 & _ & Hs2 & Hn2).
    simpl. rewrite H1, H2, Hf1, Hs1, Hn1, Hf2, Hs2, Hn2. simpl.
    repeat split; lia.
  - destruct (prefix_counts Hpre) as (Hc1 & Hc2 & Hc3 & Hc4).
    unfold count in Hc1, Hc2, Hc3, Hc4.
    rewrite !filter_app, !length_app. simpl.
    repeat split; lia.
  - destruct (prefix_counts Hpre) as (Hc1 & Hc2 & Hc3 & Hc4).
    unfold count in Hc1, Hc2, Hc3, Hc4.
    unfold send_events.
    rewrite !filter_app, !length_app.
    destruct (send_answer cfg mac d buf len s <? 0); simpl;
      repeat split; lia.
Qed.

(** Without IPv4 and assertions, on a NULL connection with a translator
    that stops: one flag write and no call of the dispatcher. *)
Example orphan_socket_one_write :
  count is_flag_write
    (trace (tcp_send_validated
              (E := Sample.collaborators (Some (Sample.radio 0)) 0 40)
              Sample.ipv6_build [104; 105] 2 (Some Sample.orphan) [])) = 1%nat
  /\
  count is_send
    (trace (tcp_send_validated
              (E := Sample.collaborators (Some (Sample.radio 0)) 0 40)
              Sample.ipv6_build [104; 105] 2 (Some Sample.orphan) [])) = 0%nat.
Proof. split; reflexivity. Qed.
